(** * Yorkie: change identifiers, the authorization webhook and PushPull

    A shallow embedding of three Go source files of the Yorkie server:

    - [pkg/document/change/id.go]  (module [Change]): the immutable change
      identifier with its Lamport clock;
    - the [auth] package (module [Auth]): access attributes, the webhook
      client with exponential backoff and the two-TTL decision cache;
    - [yorkie/packs/packs.go] (module [Packs]): the PushPull engine and
      its detached publish-and-snapshot task.

    Go's fixed-width unsigned integers are integers in [Z] reduced modulo
    2^w after every arithmetic operation; pointers that may be nil are
    [option]s; calls that leave the process (HTTP, storage, coordinator)
    are answered by oracles and recorded in traces. *)

From Stdlib Require Import ZArith Lia.
From Stdlib Require Import DecimalString.
From stdpp Require Import gmap strings list fin_maps.

Local Open Scope Z_scope.

(** ** Machine integers *)

Definition wrap32 (z : Z) : Z := z mod 2 ^ 32.
Definition wrap64 (z : Z) : Z := z mod 2 ^ 64.

Definition max_uint32 : Z := 2 ^ 32 - 1.
Definition max_uint64 : Z := 2 ^ 64 - 1.

Definition is_uint32 (z : Z) : Prop := 0 <= z <= max_uint32.
Definition is_uint64 (z : Z) : Prop := 0 <= z <= max_uint64.

(** The value of an integer as a two's-complement [int64]. *)
Definition to_int64 (z : Z) : Z := (z + 2 ^ 63) mod 2 ^ 64 - 2 ^ 63.

(** ** pkg/document/time: what the change package uses of it *)

(** Modelled from the spec: the [time] package is not among the sources.
    An actor identifier is a stable opaque 12-byte value; a time ticket is
    the triple (lamport, delimiter, actorID).  [*time.ActorID] is a
    pointer, hence the [option]. *)
Definition ActorID : Type := list Z.

Record Ticket : Type := NewTicket
  { ticket_lamport : Z;
    ticket_delimiter : Z;
    ticket_actorID : option ActorID }.

Definition InitialActorID : ActorID := replicate 12 0.

(** ** pkg/document/change/id.go *)

Module Change.

(** [type ID struct]: [serverSeq] is a [*uint64], absent until the
    server stamps it. *)
Record ID : Type := mkID
  { clientSeq : Z;
    serverSeq : option Z;
    lamport : Z;
    actorID : option ActorID }.

(** [NewID] fills three fields; Go zero-initialises [serverSeq] to nil. *)
Definition NewID (cs lp : Z) (actor : option ActorID) : ID :=
  {| clientSeq := cs; serverSeq := None; lamport := lp; actorID := actor |}.

Definition InitialID : ID := NewID 0 0 (Some InitialActorID).

(** The struct literal in [Next] names three fields only. *)
Definition Next (id : ID) : ID :=
  {| clientSeq := wrap32 (clientSeq id + 1);
     serverSeq := None;
     lamport := wrap64 (lamport id + 1);
     actorID := actorID id |}.

Definition NewTimeTicket (id : ID) (delimiter : Z) : Ticket :=
  NewTicket (lamport id) delimiter (actorID id).

Definition SyncLamport (id : ID) (otherLamport : Z) : ID :=
  if lamport id <? otherLamport
  then NewID (clientSeq id) otherLamport (actorID id)
  else NewID (clientSeq id) (wrap64 (lamport id + 1)) (actorID id).

Definition SetActor (id : ID) (actor : option ActorID) : ID :=
  NewID (clientSeq id) (lamport id) actor.

Definition SetServerSeq (id : ID) (seq : option Z) : ID :=
  let newID := NewID (clientSeq id) (lamport id) (actorID id) in
  {| clientSeq := clientSeq newID;
     serverSeq := seq;
     lamport := lamport newID;
     actorID := actorID newID |}.

(** An ID whose numeric fields fit their Go types. *)
Definition wf (id : ID) : Prop :=
  is_uint32 (clientSeq id) /\ is_uint64 (lamport id) /\
  match serverSeq id with Some s => is_uint64 s | None => True end.

End Change.

(** ** Go errors

    The [auth] package tells errors apart in three ways: by identity with
    one of its sentinels ([err == ErrUnexpectedStatusCode]), by a sentinel
    somewhere in the [Unwrap] chain ([errors.Is]) and by a
    [syscall.Errno] somewhere in the chain ([errors.As]).  The model keeps
    exactly that much structure. *)

(** Errors made outside the package (by [net/http], [encoding/json], the
    operating system): a chain that may end in a [syscall.Errno] and that
    never contains a sentinel of the [auth] package. *)
Inductive ext_error : Type :=
  | ExtErrno (errno : Z)
  | ExtOther (msg : string)
  | ExtWrap (msg : string) (inner : ext_error).

(** [ctx.Err()] of a context that is done. *)
Inductive ctx_error : Type := Canceled | DeadlineExceeded.

Inductive error : Type :=
  | ErrNotAllowed
  | ErrUnexpectedStatusCode
  | ErrWebhookTimeout
  | ErrExternal (e : ext_error)
  | ErrContext (c : ctx_error)
  | Errorf (msg : string)                       (* fmt.Errorf without %w *)
  | ErrorfW (msg : string) (wrapped : error).   (* fmt.Errorf with %w *)

Fixpoint ext_error_eqb (a b : ext_error) : bool :=
  match a, b with
  | ExtErrno x, ExtErrno y => bool_decide (x = y)
  | ExtOther s, ExtOther t => bool_decide (s = t)
  | ExtWrap s a', ExtWrap t b' => bool_decide (s = t) && ext_error_eqb a' b'
  | _, _ => false
  end.

Fixpoint error_eqb (a b : error) : bool :=
  match a, b with
  | ErrNotAllowed, ErrNotAllowed => true
  | ErrUnexpectedStatusCode, ErrUnexpectedStatusCode => true
  | ErrWebhookTimeout, ErrWebhookTimeout => true
  | ErrExternal x, ErrExternal y => ext_error_eqb x y
  | ErrContext Canceled, ErrContext Canceled => true
  | ErrContext DeadlineExceeded, ErrContext DeadlineExceeded => true
  | Errorf s, Errorf t => bool_decide (s = t)
  | ErrorfW s a', ErrorfW t b' => bool_decide (s = t) && error_eqb a' b'
  | _, _ => false
  end.

(** [strconv]-style decimal rendering, as [%d] prints an [int]. *)
Definition itoa (z : Z) : string := NilZero.string_of_int (Z.to_int z).

(** [Error()] of the three sentinels, as [errors.New] was given them. *)
Definition ErrNotAllowed_text : string := "method is not allowed for this user".
Definition ErrUnexpectedStatusCode_text : string :=
  "unexpected status code from webhook".
Definition ErrWebhookTimeout_text : string := "webhook timeout".

(** A Go [error] value is an interface and may be nil. *)
Definition go_error : Type := option error.

(** [errors.Is(err, target)]: [target] is met along the [Unwrap] chain. *)
Fixpoint errors_Is_chain (e target : error) : bool :=
  error_eqb e target ||
  match e with
  | ErrorfW _ inner => errors_Is_chain inner target
  | _ => false
  end.

Definition errors_Is (err : go_error) (target : error) : bool :=
  match err with
  | Some e => errors_Is_chain e target
  | None => false
  end.

Fixpoint ext_errno (e : ext_error) : option Z :=
  match e with
  | ExtErrno n => Some n
  | ExtOther _ => None
  | ExtWrap _ inner => ext_errno inner
  end.

Fixpoint errors_As_Errno_chain (e : error) : option Z :=
  match e with
  | ErrExternal x => ext_errno x
  | ErrorfW _ inner => errors_As_Errno_chain inner
  | _ => None
  end.

(** [errors.As(err, &errno)] with [errno] a [syscall.Errno]: the first
    errno of the chain, if there is one. *)
Definition errors_As_Errno (err : go_error) : option Z :=
  match err with
  | Some e => errors_As_Errno_chain e
  | None => None
  end.

(** [err == ErrUnexpectedStatusCode]: identity of the interface value, no
    unwrapping. *)
Definition is_ErrUnexpectedStatusCode (err : go_error) : bool :=
  match err with
  | Some ErrUnexpectedStatusCode => true
  | _ => false
  end.

(** ** Types shared by the [auth] and [packs] packages

    None of [pkg/document/key], [pkg/document/change/pack.go],
    [pkg/types] is among the sources; the records below carry the fields
    the three source files read or write. *)

(** Modelled from the spec: a document key; [BSONKey()] renders it as one
    string and is taken as an oracle where it is used. *)
Record Key : Type := mkKey
  { Collection : string;
    Document : string }.

(** Modelled from the spec: Checkpoint = (clientSeq: u32, serverSeq: u64). *)
Record Checkpoint : Type := mkCheckpoint
  { cp_ClientSeq : Z;
    cp_ServerSeq : Z }.

(** Modelled from the spec: Change = (id, message, operations), the
    operations being opaque to the core. *)
Record ChangeT : Type := mkChange
  { change_id : Change.ID;
    change_message : string;
    change_operations : list N }.

(** Modelled from the spec: ChangePack = (documentKey, checkpoint, ordered
    changes, optional snapshot, optional minSyncedTicket). *)
Record Pack : Type := mkPack
  { DocumentKey : Key;
    pack_Checkpoint : Checkpoint;
    Changes : list ChangeT;
    Snapshot : option (list Z);
    MinSyncedTicket : option Ticket }.

(** Modelled from the spec: [HasChanges()] is true iff [changes] is
    non-empty. *)
Definition HasChanges (pack : Pack) : bool :=
  negb (bool_decide (Changes pack = [])).

(** Modelled from the spec: the sizes that the metrics are fed with. *)
Definition ChangesLen (pack : Pack) : Z := Z.of_nat (length (Changes pack)).

Definition OperationsLen (pack : Pack) : Z :=
  Z.of_nat (length (concat (map change_operations (Changes pack)))).

Definition SnapshotLen (pack : Pack) : Z :=
  match Snapshot pack with
  | Some bytes => Z.of_nat (length bytes)
  | None => 0
  end.

(** [types.Read] and [types.ReadWrite] ("r" and "rw" on the wire). *)
Inductive Verb : Type := Read | ReadWrite.

Record AccessAttribute : Type := mkAccessAttribute
  { attr_Key : string;
    attr_Verb : Verb }.

Record AccessInfo : Type := mkAccessInfo
  { info_Method : string;
    info_Attributes : list AccessAttribute }.

Record AuthWebhookRequest : Type := mkAuthWebhookRequest
  { req_Token : string;
    req_Method : string;
    req_Attributes : list AccessAttribute }.

Record AuthWebhookResponse : Type := mkAuthWebhookResponse
  { Allowed : bool;
    Reason : string }.

(** ** The auth package: access attributes and the webhook client *)

Module Auth.

Definition StatusOK : Z := 200.
Definition StatusTooManyRequests : Z := 429.
Definition StatusInternalServerError : Z := 500.
Definition StatusBadGateway : Z := 502.
Definition StatusServiceUnavailable : Z := 503.
Definition StatusGatewayTimeout : Z := 504.

(** [syscall.ECONNRESET] (0x68 on linux). *)
Definition ECONNRESET : Z := 104.

(** What [backend.Config] offers to this package; durations are in
    nanoseconds, as [time.Duration] counts them. *)
Record Config : Type := mkConfig
  { RequireAuth : string -> bool;
    AuthWebhookURL : string;
    AuthWebhookMaxRetries : Z;
    ParseAuthWebhookMaxWaitInterval : Z;
    ParseAuthWebhookCacheAuthTTL : Z;
    ParseAuthWebhookCacheUnauthTTL : Z }.

(** Modelled from the spec: the authorization cache is a keyed mapping
    with a per-entry TTL.  An entry holds the stored pointer (possibly
    nil) and the TTL it was added with; entries whose TTL has elapsed are
    dropped between calls, not during one. *)
Record CacheEntry : Type := mkCacheEntry
  { entry_value : option AuthWebhookResponse;
    entry_ttl : Z }.

Definition cache_Get (c : gmap string CacheEntry) (key : string)
  : option (option AuthWebhookResponse) :=
  entry_value <$> c !! key.

Definition cache_Add (c : gmap string CacheEntry) (key : string)
    (value : option AuthWebhookResponse) (ttl : Z) : gmap string CacheEntry :=
  <[key := mkCacheEntry value ttl]> c.

Record Backend : Type := mkBackend
  { be_Config : Config;
    AuthWebhookCache : gmap string CacheEntry }.

(** What [http.Post] gives back: an error, or a response with its
    status code and body. *)
Inductive http_result : Type :=
  | PostFailed (e : ext_error)
  | PostResponse (StatusCode : Z) (Body : string).

(** The world outside the process during one [VerifyAccess] call.
    [http_Post n url body] answers the POST that is the [n]-th one of
    the call (from 0); [ctx_Done n] tells which branch of the [select]
    fires in the wait that follows the [n]-th attempt: [Some e] when the
    context is done first ([e] is [ctx.Err()]), [None] when the timer
    is. *)
Record Env : Type := mkEnv
  { BSONKey : Key -> string;
    json_Marshal : AuthWebhookRequest -> ext_error + string;
    NewAuthWebhookResponse : string -> ext_error + AuthWebhookResponse;
    http_Post : N -> string -> string -> http_result;
    ctx_Done : N -> option ctx_error }.

(** [context.Context]: the token bound to the call. *)
Record Context : Type := mkContext
  { TokenFromCtx : string }.

Definition AccessAttributes (env : Env) (pack : Pack) : list AccessAttribute :=
  let verb := if HasChanges pack then ReadWrite else Read in
  [ {| attr_Key := BSONKey env (DocumentKey pack); attr_Verb := verb |} ].

Definition shouldRetry (statusCode : Z) (err : go_error) : bool :=
  match errors_As_Errno err with
  | Some errno => errno =? ECONNRESET
  | None =>
      (statusCode =? StatusInternalServerError) ||
      (statusCode =? StatusServiceUnavailable) ||
      (statusCode =? StatusGatewayTimeout) ||
      (statusCode =? StatusTooManyRequests)
  end.

(** The retriable outcomes in the words of the specification. *)
Definition retriable_spec (statusCode : Z) (err : go_error) : Prop :=
  errors_As_Errno err = Some ECONNRESET
  \/ statusCode = 500 \/ statusCode = 502 \/ statusCode = 503
  \/ statusCode = 504 \/ statusCode = 429.

(** The retriable outcomes as [shouldRetry] decides them. *)
Definition retriable_code (statusCode : Z) (err : go_error) : Prop :=
  errors_As_Errno err = Some ECONNRESET
  \/ (errors_As_Errno err = None
      /\ (statusCode = 500 \/ statusCode = 503
          \/ statusCode = 504 \/ statusCode = 429)).

(** The error that ends the loop when the retries have run out, for a
    given value of the outer [statusCode]. *)
Definition timeout_error (statusCode : Z) : error :=
  ErrorfW ("unexpected status code from webhook " +:+ itoa statusCode
           +:+ ": " +:+ ErrWebhookTimeout_text) ErrWebhookTimeout.

(** The error that ends the loop when [shouldRetry] rejects an
    outcome. *)
Definition final_error (code : Z) (err : go_error) : go_error :=
  if is_ErrUnexpectedStatusCode err
  then Some (Errorf ("unexpected status code from webhook: " +:+ itoa code))
  else err.

(** How [withExponentialBackoff] ends: the returned error, the number
    of times [webhookFn] was invoked, and the state that the closure
    left behind. *)
Record backoff_result (S : Type) : Type := mkBackoffResult
  { backoff_err : go_error;
    backoff_calls : N;
    backoff_state : S }.
Arguments mkBackoffResult {S} _ _ _.
Arguments backoff_err {S} _.
Arguments backoff_calls {S} _.
Arguments backoff_state {S} _.

Section Backoff.
Context {S : Type}.
Variable env : Env.
Variable cfg : Config.
(** The closure: one invocation returns [(int, error)] and updates
    the variables it captured. *)
Variable webhookFn : S -> Z * go_error * S.

(** The [for] loop, one unfolding per evaluation of its condition.
    [statusCode] is the variable declared before the loop.  Inside the
    body, [statusCode, err := webhookFn()] declares two new variables
    ([code] and [err] here) whose scope is the body, so the outer one
    is never assigned.  The wait computed by [waitInterval] only sets
    the timer of the [select]; which branch fires is the oracle's
    answer.  [calls] counts the invocations of [webhookFn]; [None]
    means that [fuel] ran out. *)
Fixpoint backoff_loop (fuel : nat) (retries statusCode : Z) (calls : N)
    (s : S) : option (backoff_result S) :=
  match fuel with
  | O => None
  | Datatypes.S fuel' =>
      if retries <=? AuthWebhookMaxRetries cfg then
        let '(code, err, s') := webhookFn s in
        if negb (shouldRetry code err) then
          if is_ErrUnexpectedStatusCode err then
            Some (mkBackoffResult
                    (Some (Errorf ("unexpected status code from webhook: "
                                   +:+ itoa code)))
                    (calls + 1)%N s')
          else Some (mkBackoffResult err (calls + 1)%N s')
        else
          match ctx_Done env calls with
          | Some e =>
              Some (mkBackoffResult (Some (ErrContext e)) (calls + 1)%N s')
          | None =>
              backoff_loop fuel' (wrap64 (retries + 1)) statusCode
                           (calls + 1)%N s'
          end
      else
        Some (mkBackoffResult
                (Some (ErrorfW ("unexpected status code from webhook "
                                +:+ itoa statusCode +:+ ": "
                                +:+ ErrWebhookTimeout_text)
                               ErrWebhookTimeout))
                calls s)
  end.

Definition withExponentialBackoff (fuel : nat) (s : S)
  : option (backoff_result S) :=
  let retries := 0 in
  let statusCode := 0 in
  backoff_loop fuel retries statusCode 0%N s.
End Backoff.

(** [time.Millisecond], in nanoseconds. *)
Definition Millisecond : Z := 1000000.

(** [waitInterval].  For [retries <= 62], [math.Pow(2, float64(retries))]
    is the power of two itself and its conversion to [time.Duration] (an
    [int64]) is exact.  From 63 on the float is outside the [int64] range
    (it is [+Inf] from 1024 on); the language leaves that conversion to
    the implementation, and on linux/amd64, the platform of [ECONNRESET]
    above, it yields the least [int64].  The two multiplications that
    follow are [int64] multiplications. *)
Definition waitInterval (retries maxWaitInterval : Z) : option Z :=
  let power := if retries <=? 62 then 2 ^ retries else - 2 ^ 63 in
  let interval := to_int64 (to_int64 (power * 100) * Millisecond) in
  if maxWaitInterval <? interval then Some maxWaitInterval else Some interval.

(** A Go call either returns or panics (a nil pointer dereference). *)
Inductive returned (A : Type) : Type :=
  | Return (a : A)
  | Panic.
Arguments Return {A} _.
Arguments Panic {A}.

(** What the closure passed by [VerifyAccess] captures and assigns:
    [authResp], and the number of POSTs sent so far in this call. *)
Record webhook_state : Type := mkWebhookState
  { authResp : option AuthWebhookResponse;
    posts : N }.

(** How [VerifyAccess] ends: what it returned, the cache as it left it,
    and the number of POSTs it sent. *)
Record verify_result : Type := mkVerifyResult
  { verify_err : returned go_error;
    verify_cache : gmap string CacheEntry;
    verify_posts : N }.

Section VerifyAccess.
Variable env : Env.

(** The function literal handed to [withExponentialBackoff].  Closing
    the body can only log; the log is not part of the model. *)
Definition webhookFn (cfg : Config) (reqBody : string) (st : webhook_state)
  : Z * go_error * webhook_state :=
  match http_Post env (posts st) (AuthWebhookURL cfg) reqBody with
  | PostFailed e =>
      (0, Some (ErrExternal e), mkWebhookState (authResp st) (posts st + 1)%N)
  | PostResponse StatusCode Body =>
      if negb (StatusOK =? StatusCode) then
        (StatusCode, Some ErrUnexpectedStatusCode,
         mkWebhookState (authResp st) (posts st + 1)%N)
      else
        match NewAuthWebhookResponse env Body with
        | inl e =>
            (StatusCode, Some (ErrExternal e),
             mkWebhookState None (posts st + 1)%N)
        | inr resp =>
            if negb (Allowed resp) then
              (StatusCode,
               Some (ErrorfW (Reason resp +:+ ": " +:+ ErrNotAllowed_text)
                             ErrNotAllowed),
               mkWebhookState (Some resp) (posts st + 1)%N)
            else
              (StatusCode, None, mkWebhookState (Some resp) (posts st + 1)%N)
        end
  end.

(** What one POST can lead to. *)
Inductive attempt (cfg : Config) (reqBody : string)
  : webhook_state -> Z -> go_error -> webhook_state -> Prop :=
  | attempt_failed st e :
      http_Post env (posts st) (AuthWebhookURL cfg) reqBody = PostFailed e ->
      attempt cfg reqBody st 0 (Some (ErrExternal e))
        (mkWebhookState (authResp st) (posts st + 1)%N)
  | attempt_status st code body :
      http_Post env (posts st) (AuthWebhookURL cfg) reqBody
        = PostResponse code body ->
      code <> StatusOK ->
      attempt cfg reqBody st code (Some ErrUnexpectedStatusCode)
        (mkWebhookState (authResp st) (posts st + 1)%N)
  | attempt_unparseable st body e :
      http_Post env (posts st) (AuthWebhookURL cfg) reqBody
        = PostResponse StatusOK body ->
      NewAuthWebhookResponse env body = inl e ->
      attempt cfg reqBody st StatusOK (Some (ErrExternal e))
        (mkWebhookState None (posts st + 1)%N)
  | attempt_denied st body resp :
      http_Post env (posts st) (AuthWebhookURL cfg) reqBody
        = PostResponse StatusOK body ->
      NewAuthWebhookResponse env body = inr resp ->
      Allowed resp = false ->
      attempt cfg reqBody st StatusOK
        (Some (ErrorfW (Reason resp +:+ ": " +:+ ErrNotAllowed_text)
                       ErrNotAllowed))
        (mkWebhookState (Some resp) (posts st + 1)%N)
  | attempt_allowed st body resp :
      http_Post env (posts st) (AuthWebhookURL cfg) reqBody
        = PostResponse StatusOK body ->
      NewAuthWebhookResponse env body = inr resp ->
      Allowed resp = true ->
      attempt cfg reqBody st StatusOK None
        (mkWebhookState (Some resp) (posts st + 1)%N).

Definition VerifyAccess (fuel : nat) (ctx : Context) (be : Backend)
    (info : AccessInfo) : option verify_result :=
  let cfg := be_Config be in
  let cache := AuthWebhookCache be in
  if negb (RequireAuth cfg (info_Method info)) then
    Some (mkVerifyResult (Return None) cache 0%N)
  else
    match json_Marshal env
            {| req_Token := TokenFromCtx ctx;
               req_Method := info_Method info;
               req_Attributes := info_Attributes info |} with
    | inl err => Some (mkVerifyResult (Return (Some (ErrExternal err))) cache 0%N)
    | inr reqBody =>
        let cacheKey := reqBody in
        match cache_Get cache cacheKey with
        | Some entry =>
            match entry with
            | None => Some (mkVerifyResult Panic cache 0%N)
            | Some resp =>
                if negb (Allowed resp) then
                  Some (mkVerifyResult
                          (Return (Some (ErrorfW (Reason resp +:+ ": "
                                                  +:+ ErrNotAllowed_text)
                                                 ErrNotAllowed)))
                          cache 0%N)
                else Some (mkVerifyResult (Return None) cache 0%N)
            end
        | None =>
            match withExponentialBackoff env cfg (webhookFn cfg reqBody)
                    fuel (mkWebhookState None 0%N) with
            | None => None
            | Some r =>
                let authResp := authResp (backoff_state r) in
                match backoff_err r with
                | Some err =>
                    let cache' :=
                      if errors_Is (Some err) ErrNotAllowed
                      then cache_Add cache cacheKey authResp
                             (ParseAuthWebhookCacheUnauthTTL cfg)
                      else cache in
                    Some (mkVerifyResult (Return (Some err)) cache'
                            (posts (backoff_state r)))
                | None =>
                    Some (mkVerifyResult (Return None)
                            (cache_Add cache cacheKey authResp
                               (ParseAuthWebhookCacheAuthTTL cfg))
                            (posts (backoff_state r)))
                end
            end
        end
    end.
End VerifyAccess.

(** The errors that [VerifyAccess] returns without touching the cache. *)
Inductive uncached_error : error -> Prop :=
  | uncached_external e :
      uncached_error (ErrExternal e)
  | uncached_status code :
      uncached_error
        (Errorf ("unexpected status code from webhook: " +:+ itoa code))
  | uncached_timeout statusCode :
      uncached_error (timeout_error statusCode)
  | uncached_context c :
      uncached_error (ErrContext c).




(** What the [n]-th POST of a call leads to, as [webhookFn] reports it:
    the status code and the error. *)
Definition outcome (env : Env) (cfg : Config) (reqBody : string) (n : N)
  : Z * go_error :=
  fst (webhookFn env cfg reqBody (mkWebhookState None n)).

(** A cache without nil pointers. *)
Definition cache_wf (c : gmap string CacheEntry) : Prop :=
  forall k e, c !! k = Some e -> is_Some (entry_value e).

End Auth.

(** ** yorkie/packs/packs.go: the PushPull engine *)

Module Packs.

(** Modelled from the spec: the response pack ([ServerPack] is declared
    in a file that is not among the sources) has the fields of a change
    pack. *)
Record ServerPack : Type := mkServerPack
  { sp_DocumentKey : Key;
    sp_Checkpoint : Checkpoint;
    sp_ChangeInfos : list ChangeT;
    sp_Snapshot : option (list Z);
    sp_MinSyncedTicket : option Ticket }.

Definition sp_ChangesLen (p : ServerPack) : Z :=
  Z.of_nat (length (sp_ChangeInfos p)).

Definition sp_OperationsLen (p : ServerPack) : Z :=
  Z.of_nat (length (concat (map change_operations (sp_ChangeInfos p)))).

Definition sp_SnapshotLen (p : ServerPack) : Z :=
  match sp_Snapshot p with
  | Some bytes => Z.of_nat (length bytes)
  | None => 0
  end.

(** Modelled from the spec: DocInfo = (id, key, serverSeq, ...) and
    ClientInfo = (id, per-document checkpoints); ids are kept in the
    form their [String()] prints. *)
Record DocInfo : Type := mkDocInfo
  { di_ID : string;
    di_Key : Key;
    di_ServerSeq : Z }.

Record ClientInfo : Type := mkClientInfo
  { ci_ID : string;
    ci_Checkpoints : gmap string Checkpoint }.

(** [sync.Key] is a string; a locker is known by the key it was made
    for. *)
Record Locker : Type := mkLocker
  { locker_key : string }.

Inductive DocEventType : Type :=
  | DocumentsChangedEvent
  | DocumentsWatchedEvent
  | DocumentsUnwatchedEvent.

Record DocEvent : Type := mkDocEvent
  { ev_Type : DocEventType;
    ev_Publisher : ActorID;
    ev_DocumentKeys : list Key }.

(** Calls that [PushPull] makes on its collaborators, with the
    arguments that matter, in the order they are made. *)
Inductive Call : Type :=
  | CallPushChanges (reqPack : Pack) (initialServerSeq : Z)
  | CallPullPack (reqPack : Pack) (pushedCP : Checkpoint) (initialServerSeq : Z)
  | CallUpdateCheckpoint (docID : string) (cp : Checkpoint)
  | CallCreateChangeInfos (initialServerSeq : Z) (changes : list ChangeT)
  | CallUpdateClientInfoAfterPushPull
  | CallUpdateAndFindMinSyncedTicket (clientID docID : string) (serverSeq : Z)
  | CallMetric (name : string) (value : Z)
  | CallObserve (name : string).

(** The function literal given to [AttachGoroutine], by the variables
    it captures. *)
Record Task : Type := mkTask
  { task_clientID : string;
    task_DocumentKey : Key;
    task_docInfo : DocInfo;
    task_minSyncedTicket : option Ticket }.

(** What the detached task does, as seen from outside. *)
Inductive TaskEvent : Type :=
  | EvLogError (e : error)
  | EvNewLocker (key : string)
  | EvTryLock (l : Locker)
  | EvUnlock (l : Locker)
  | EvPublish (publisherID : ActorID) (ev : DocEvent)
  | EvStoreSnapshot (docInfo : DocInfo) (minSyncedTicket : option Ticket)
  | EvObserveSnapshotDuration.

(** The two effects that the snapshot lock guards. *)
Definition is_publish_or_store (ev : TaskEvent) : bool :=
  match ev with
  | EvPublish _ _ | EvStoreSnapshot _ _ => true
  | _ => false
  end.

Section Engine.
(** The state of the storage engine. *)
Context {Store : Type}.

(** The objects behind the [clientInfo] and [docInfo] pointers and the
    store: everything a collaborator may read and change. *)
Record Heap : Type := mkHeap
  { h_client : ClientInfo;
    h_doc : DocInfo;
    h_store : Store }.

(** The functions of the repository that [PushPull] and its task call
    and that are not among the sources. *)
Record Env : Type := mkEnv
  { BSONKey : Key -> string;
    pushChanges : Pack -> Z -> Heap -> (error + Checkpoint * list ChangeT) * Heap;
    pullPack : Pack -> Checkpoint -> Z -> Heap -> (error + ServerPack) * Heap;
    UpdateCheckpoint : string -> Checkpoint -> Heap -> (error + unit) * Heap;
    CreateChangeInfos : Z -> list ChangeT -> Heap -> (error + unit) * Heap;
    UpdateClientInfoAfterPushPull : Heap -> (error + unit) * Heap;
    UpdateAndFindMinSyncedTicket :
      string -> Z -> Heap -> (error + option Ticket) * Heap;
    ActorIDFromHex : string -> error + ActorID;
    NewLocker : string -> error + Locker;
    TryLock : Locker -> go_error;
    Unlock : Locker -> go_error;
    storeSnapshot : DocInfo -> option Ticket -> go_error }.

Record World : Type := mkWorld
  { heap : Heap;
    calls : list Call;
    goroutines : list Task }.

(** Computations that may fail with a Go error and that change the
    world. *)
Definition M (A : Type) : Type := World -> (error + A) * World.

Definition ret {A} (a : A) : M A := fun w => (inr a, w).

Definition bind {A B} (m : M A) (k : A -> M B) : M B :=
  fun w =>
    match m w with
    | (inl e, w') => (inl e, w')
    | (inr a, w') => k a w'
    end.

Definition getHeap : M Heap := fun w => (inr (heap w), w).

(** A call on a collaborator: recorded, then answered on the heap. *)
Definition invoke {A} (c : Call) (op : Heap -> (error + A) * Heap) : M A :=
  fun w =>
    let '(r, h) := op (heap w) in
    (r, mkWorld h (calls w ++ [c]) (goroutines w)).

Definition record (c : Call) : M unit :=
  fun w => (inr tt, mkWorld (heap w) (calls w ++ [c]) (goroutines w)).

Definition AttachGoroutine (t : Task) : M unit :=
  fun w => (inr tt, mkWorld (heap w) (calls w) (goroutines w ++ [t])).

#[local] Instance M_ret : MRet M := @ret.
#[local] Instance M_bind : MBind M := fun A B k m => bind m k.

Variable env : Env.

Definition NewPushPullKey (documentKey : Key) : string :=
  "pushpull-" +:+ BSONKey env documentKey.

Definition NewSnapshotKey (documentKey : Key) : string :=
  "snapshot-" +:+ BSONKey env documentKey.

(** The body of [PushPull], from its first statement to its last
    [return]; the deferred metric is added by [PushPull] below. *)
Definition PushPull_body (reqPack : Pack) : M ServerPack :=
  h0 ← getHeap;
  let initialServerSeq := di_ServerSeq (h_doc h0) in
  (* 01. push changes. *)
  '(pushedCP, pushedChanges) ←
    invoke (CallPushChanges reqPack initialServerSeq)
           (pushChanges env reqPack initialServerSeq);
  record (CallMetric "AddPushPullReceivedChanges" (ChangesLen reqPack));;
  record (CallMetric "AddPushPullReceivedOperations" (OperationsLen reqPack));;
  (* 02. pull change pack. *)
  respPack ←
    invoke (CallPullPack reqPack pushedCP initialServerSeq)
           (pullPack env reqPack pushedCP initialServerSeq);
  record (CallMetric "AddPushPullSentChanges" (sp_ChangesLen respPack));;
  record (CallMetric "AddPushPullSentOperations" (sp_OperationsLen respPack));;
  record (CallMetric "AddPushPullSnapshotBytes" (sp_SnapshotLen respPack));;
  h1 ← getHeap;
  invoke (CallUpdateCheckpoint (di_ID (h_doc h1)) (sp_Checkpoint respPack))
         (UpdateCheckpoint env (di_ID (h_doc h1)) (sp_Checkpoint respPack));;
  (* 03. store pushed changes, document info and checkpoint. *)
  (if (0 <? length pushedChanges)%nat
   then invoke (CallCreateChangeInfos initialServerSeq pushedChanges)
               (CreateChangeInfos env initialServerSeq pushedChanges)
   else mret tt);;
  invoke CallUpdateClientInfoAfterPushPull
         (UpdateClientInfoAfterPushPull env);;
  (* 04. update and find min synced ticket for garbage collection. *)
  h2 ← getHeap;
  minSyncedTicket ←
    invoke (CallUpdateAndFindMinSyncedTicket
              (ci_ID (h_client h2)) (di_ID (h_doc h2))
              (cp_ServerSeq (pack_Checkpoint reqPack)))
           (UpdateAndFindMinSyncedTicket env
              (di_ID (h_doc h2))
              (cp_ServerSeq (pack_Checkpoint reqPack)));
  let respPack :=
    mkServerPack (sp_DocumentKey respPack) (sp_Checkpoint respPack)
                 (sp_ChangeInfos respPack) (sp_Snapshot respPack)
                 minSyncedTicket in
  (* 05. publish document change event then store snapshot. *)
  (if HasChanges reqPack
   then h3 ← getHeap;
        AttachGoroutine
          {| task_clientID := ci_ID (h_client h3);
             task_DocumentKey := DocumentKey reqPack;
             task_docInfo := h_doc h3;
             task_minSyncedTicket := minSyncedTicket |}
   else mret tt);;
  mret respPack.

(** [PushPull]: the body, then the deferred
    [ObservePushPullResponseSeconds] on every way out. *)
Definition PushPull (reqPack : Pack) : M ServerPack :=
  fun w =>
    let '(r, w') := PushPull_body reqPack w in
    (r, mkWorld (heap w') (calls w' ++ [CallObserve "PushPullResponseSeconds"])
                (goroutines w')).

(** The detached task, run to its end: the events it causes, in
    order.  The deferred [Unlock] comes last, and only once
    [TryLock] has succeeded. *)
Definition snapshotTask (t : Task) : list TaskEvent :=
  match ActorIDFromHex env (task_clientID t) with
  | inl err => [EvLogError err]
  | inr publisherID =>
      let key := NewSnapshotKey (task_DocumentKey t) in
      EvNewLocker key ::
      match NewLocker env key with
      | inl err => [EvLogError err]
      | inr locker =>
          EvTryLock locker ::
          match TryLock env locker with
          | Some _ => []
          | None =>
              [EvPublish publisherID
                 {| ev_Type := DocumentsChangedEvent;
                    ev_Publisher := publisherID;
                    ev_DocumentKeys := [task_DocumentKey t] |};
               EvStoreSnapshot (task_docInfo t) (task_minSyncedTicket t)]
              ++ match storeSnapshot env (task_docInfo t)
                         (task_minSyncedTicket t) with
                 | Some err => [EvLogError err]
                 | None => []
                 end
              ++ [EvObserveSnapshotDuration; EvUnlock locker]
              ++ match Unlock env locker with
                 | Some err => [EvLogError err]
                 | None => []
                 end
          end
      end
  end.
End Engine.

End Packs.

(** * Concrete inputs

    Small worlds on which the models are run. *)

Module Sample.
Import Auth.

Definition bsonKey (k : Key) : string := Collection k +:+ "$" +:+ Document k.

Definition marshal (r : AuthWebhookRequest) : ext_error + string :=
  inr (req_Token r +:+ " " +:+ req_Method r).

Definition decode (body : string) : ext_error + AuthWebhookResponse :=
  if bool_decide (body = "allow") then inr (mkAuthWebhookResponse true "")
  else if bool_decide (body = "deny") then inr (mkAuthWebhookResponse false "no")
  else inl (ExtOther "invalid character").

(** The webhook answers the POSTs with [script], in order, and with
    [rest] once the script is over; the context is never done. *)
Definition scripted (script : list http_result) (rest : http_result) : Env :=
  {| BSONKey := bsonKey;
     json_Marshal := marshal;
     NewAuthWebhookResponse := decode;
     http_Post := fun n _ _ => nth (N.to_nat n) script rest;
     ctx_Done := fun _ => None |}.

(** The webhook answers 503 to the first 2^64 POSTs and allows
    afterwards. *)
Definition stubborn : Env :=
  {| BSONKey := bsonKey;
     json_Marshal := marshal;
     NewAuthWebhookResponse := decode;
     http_Post := fun n _ _ =>
       if (n <? 2 ^ 64)%N then PostResponse StatusServiceUnavailable ""
       else PostResponse StatusOK "allow";
     ctx_Done := fun _ => None |}.

(** The webhook answers 503 to every POST and the context is cancelled
    during the wait that follows POST number [k]. *)
Definition impatient (k : N) : Env :=
  {| BSONKey := bsonKey;
     json_Marshal := marshal;
     NewAuthWebhookResponse := decode;
     http_Post := fun _ _ _ => PostResponse StatusServiceUnavailable "";
     ctx_Done := fun n => if (n =? k)%N then Some Canceled else None |}.

Definition config (maxRetries : Z) : Config :=
  {| RequireAuth := fun _ => true;
     AuthWebhookURL := "http://localhost/auth";
     AuthWebhookMaxRetries := maxRetries;
     ParseAuthWebhookMaxWaitInterval := 3000000000;
     ParseAuthWebhookCacheAuthTTL := 10000000000;
     ParseAuthWebhookCacheUnauthTTL := 5000000000 |}.

Definition backend (maxRetries : Z) : Backend :=
  {| be_Config := config maxRetries; AuthWebhookCache := ∅ |}.

Definition ctx : Context := {| TokenFromCtx := "token" |}.

Definition info : AccessInfo :=
  {| info_Method := "PushPull";
     info_Attributes := [ {| attr_Key := "c$d"; attr_Verb := ReadWrite |} ] |}.

Definition unavailable : http_result := PostResponse StatusServiceUnavailable "".

(** A storage engine that keeps the pushed changes in a list and
    accepts everything; [tryLock] is the answer of the snapshot lock. *)
Definition packsEnv (tryLock : go_error) : @Packs.Env (list ChangeT) :=
  {| Packs.BSONKey := bsonKey;
     Packs.pushChanges := fun reqPack initialServerSeq h =>
       let n := Z.of_nat (length (Changes reqPack)) in
       (inr (mkCheckpoint (cp_ClientSeq (pack_Checkpoint reqPack) + n)
                          (initialServerSeq + n),
             Changes reqPack),
        Packs.mkHeap (Packs.h_client h)
          (Packs.mkDocInfo (Packs.di_ID (Packs.h_doc h))
             (Packs.di_Key (Packs.h_doc h)) (initialServerSeq + n))
          (Packs.h_store h));
     Packs.pullPack := fun reqPack pushedCP _ h =>
       (inr (Packs.mkServerPack (DocumentKey reqPack) pushedCP [] None None), h);
     Packs.UpdateCheckpoint := fun docID cp h =>
       (inr tt,
        Packs.mkHeap
          (Packs.mkClientInfo (Packs.ci_ID (Packs.h_client h))
             (<[docID := cp]> (Packs.ci_Checkpoints (Packs.h_client h))))
          (Packs.h_doc h) (Packs.h_store h));
     Packs.CreateChangeInfos := fun _ changes h =>
       (inr tt,
        Packs.mkHeap (Packs.h_client h) (Packs.h_doc h)
          (Packs.h_store h ++ changes));
     Packs.UpdateClientInfoAfterPushPull := fun h => (inr tt, h);
     Packs.UpdateAndFindMinSyncedTicket := fun _ serverSeq h =>
       (inr (Some (NewTicket serverSeq 0 (Some InitialActorID))), h);
     Packs.ActorIDFromHex := fun _ => inr InitialActorID;
     Packs.NewLocker := fun key => inr (Packs.mkLocker key);
     Packs.TryLock := fun _ => tryLock;
     Packs.Unlock := fun _ => None;
     Packs.storeSnapshot := fun _ _ => None |}.

(** The same engine with a store that fails in
    [UpdateAndFindMinSyncedTicket]. *)
Definition brokenEnv : @Packs.Env (list ChangeT) :=
  let good := packsEnv None in
  {| Packs.BSONKey := Packs.BSONKey good;
     Packs.pushChanges := Packs.pushChanges good;
     Packs.pullPack := Packs.pullPack good;
     Packs.UpdateCheckpoint := Packs.UpdateCheckpoint good;
     Packs.CreateChangeInfos := Packs.CreateChangeInfos good;
     Packs.UpdateClientInfoAfterPushPull :=
       Packs.UpdateClientInfoAfterPushPull good;
     Packs.UpdateAndFindMinSyncedTicket := fun _ _ h =>
       (inl (Errorf "store unavailable"), h);
     Packs.ActorIDFromHex := Packs.ActorIDFromHex good;
     Packs.NewLocker := Packs.NewLocker good;
     Packs.TryLock := Packs.TryLock good;
     Packs.Unlock := Packs.Unlock good;
     Packs.storeSnapshot := Packs.storeSnapshot good |}.

Definition docKey : Key := mkKey "c" "d".

(** Scenario S2 with a client that has seen the document up to server
    sequence 7 only: the document stands at 10, one change is pushed. *)
Definition world : @Packs.World (list ChangeT) :=
  Packs.mkWorld
    (Packs.mkHeap (Packs.mkClientInfo "client" {["doc" := mkCheckpoint 3 7]})
                  (Packs.mkDocInfo "doc" docKey 10) [])
    [] [].

Definition pushOne : Pack :=
  mkPack docKey (mkCheckpoint 3 7)
    [mkChange (Change.NewID 4 4 (Some InitialActorID)) "edit" [1%N]] None None.

Definition pullOnly : Pack := mkPack docKey (mkCheckpoint 3 7) [] None None.
End Sample.

(** * Properties *)

(** ** Machine integers *)

Lemma wrap64_small z : 0 <= z < 2 ^ 64 -> wrap64 z = z.
Proof. intros H. unfold wrap64. now apply Z.mod_small. Qed.

Lemma wrap32_small z : 0 <= z < 2 ^ 32 -> wrap32 z = z.
Proof. intros H. unfold wrap32. now apply Z.mod_small. Qed.

Lemma wrap64_succ_max : wrap64 (max_uint64 + 1) = 0.
Proof. reflexivity. Qed.

Lemma wrap32_succ_max : wrap32 (max_uint32 + 1) = 0.
Proof. reflexivity. Qed.

Lemma wrap64_range z : 0 <= wrap64 z < 2 ^ 64.
Proof. unfold wrap64. apply Z.mod_pos_bound. lia. Qed.

(** ** Change identifiers *)

Section ChangeID.
Import Change.

Lemma SyncLamport_lamport id L' :
  lamport (SyncLamport id L') =
  if lamport id <? L' then L' else wrap64 (lamport id + 1).
Proof. unfold SyncLamport. now destruct (lamport id <? L'). Qed.

(** C2, as the code has it: below the top of the 64-bit range,
    [SyncLamport L'] yields lamport [L'] when [L' > L] and [L + 1]
    otherwise, hence a lamport that is at least [max L L'] and that
    exceeds [L] whenever [L' <= L]. *)
Theorem SyncLamport_law (id : ID) (L' : Z) :
  0 <= lamport id < max_uint64 ->
  lamport (SyncLamport id L') = (if L' >? lamport id then L' else lamport id + 1)
  /\ lamport (SyncLamport id L') >= Z.max (lamport id) L'
  /\ (L' <= lamport id -> lamport (SyncLamport id L') > lamport id).
Proof.
  intros HL. rewrite SyncLamport_lamport.
  rewrite Z.gtb_ltb.
  destruct (Z.ltb_spec (lamport id) L') as [Hlt | Hge].
  - repeat split; lia.
  - rewrite wrap64_small by (unfold max_uint64 in HL; lia).
    repeat split; lia.
Qed.

Lemma SyncLamport_law_witness :
  0 <= lamport (NewID 3 7 None) < max_uint64
  /\ lamport (SyncLamport (NewID 3 7 None) 5) = 8
  /\ lamport (SyncLamport (NewID 3 7 None) 5) >= Z.max 7 5
  /\ (5 <= 7 -> lamport (SyncLamport (NewID 3 7 None) 5) > 7).
Proof.
  assert (H : 0 <= lamport (NewID 3 7 None) < max_uint64)
    by (vm_compute; split; congruence).
  split; [exact H |].
  exact (SyncLamport_law (NewID 3 7 None) 5 H).
Defined.

(** C2 as it is written fails at the top of the range: with
    [L = 2^64 - 1] and [L' = 0] the sum wraps, the result lamport is 0,
    which is neither [L + 1] nor above [L] nor at least [max L L']. *)
Lemma SyncLamport_wraps_at_max :
  let id := NewID 0 max_uint64 None in
  let L' := 0 in
  wf id /\ is_uint64 L' /\ L' <= lamport id
  /\ lamport (SyncLamport id L') = 0
  /\ lamport (SyncLamport id L') <> lamport id + 1
  /\ ~ lamport (SyncLamport id L') >= Z.max (lamport id) L'
  /\ ~ lamport (SyncLamport id L') > lamport id.
Proof.
  vm_compute. repeat split; congruence.
Qed.

(** C9: [Next], [SyncLamport] and [SetActor] return an ID without a
    server sequence, also on a receiver that [SetServerSeq] had stamped;
    [SetServerSeq] changes [serverSeq] and nothing else. *)
Theorem serverSeq_frame (id : ID) (L' s : Z) (actor : option ActorID)
    (seq : option Z) :
  serverSeq (Next id) = None
  /\ serverSeq (SyncLamport id L') = None
  /\ serverSeq (SetActor id actor) = None
  /\ serverSeq (Next (SetServerSeq id (Some s))) = None
  /\ serverSeq (SyncLamport (SetServerSeq id (Some s)) L') = None
  /\ serverSeq (SetActor (SetServerSeq id (Some s)) actor) = None
  /\ serverSeq (SetServerSeq id seq) = seq
  /\ clientSeq (SetServerSeq id seq) = clientSeq id
  /\ lamport (SetServerSeq id seq) = lamport id
  /\ actorID (SetServerSeq id seq) = actorID id.
Proof.
  unfold SyncLamport.
  destruct (lamport id <? L') eqn:E1;
    destruct (lamport (SetServerSeq id (Some s)) <? L') eqn:E2;
    repeat split; reflexivity.
Qed.

Lemma Next_modular (id : ID) :
  clientSeq (Next id) = (clientSeq id + 1) mod 2 ^ 32
  /\ lamport (Next id) = (lamport id + 1) mod 2 ^ 64.
Proof. split; reflexivity. Qed.

(** C10: at [clientSeq = 2^32 - 1], [Next] yields [clientSeq = 0], a
    smaller value than the receiver's; in general [Next] adds one
    modulo 2^32 to [clientSeq] and modulo 2^64 to [lamport]. *)
Theorem Next_clientSeq_wraps (id : ID) :
  clientSeq id = 2 ^ 32 - 1 ->
  clientSeq (Next id) = 0
  /\ clientSeq (Next id) < clientSeq id
  /\ clientSeq (Next id) = (clientSeq id + 1) mod 2 ^ 32
  /\ lamport (Next id) = (lamport id + 1) mod 2 ^ 64.
Proof.
  intros H. unfold Next; simpl. rewrite H.
  repeat split.
Qed.

Lemma Next_clientSeq_wraps_witness :
  clientSeq (NewID (2 ^ 32 - 1) 5 None) = 2 ^ 32 - 1
  /\ clientSeq (Next (NewID (2 ^ 32 - 1) 5 None)) = 0.
Proof.
  split; [reflexivity |].
  apply (Next_clientSeq_wraps (NewID (2 ^ 32 - 1) 5 None)). reflexivity.
Defined.
End ChangeID.

(** ** The authorization gate *)

Section AuthGate.
Import Auth.

(** C7: [AccessAttributes] returns one attribute; its key is the
    pack's document key and its verb is [Read] for a pack without
    changes and [ReadWrite] for a pack with at least one. *)
Theorem AccessAttributes_single (env : Env) (pack : Pack) :
  exists a : AccessAttribute,
    AccessAttributes env pack = [a]
    /\ attr_Key a = BSONKey env (DocumentKey pack)
    /\ (Changes pack = [] -> attr_Verb a = Read)
    /\ ((1 <= length (Changes pack))%nat -> attr_Verb a = ReadWrite).
Proof.
  unfold AccessAttributes, HasChanges.
  eexists; split; [reflexivity |]; simpl.
  split; [reflexivity |].
  destruct (Changes pack) as [| c cs]; simpl; split; intros H;
    try reflexivity; try congruence; lia.
Qed.

Lemma shouldRetry_iff (statusCode : Z) (err : go_error) :
  shouldRetry statusCode err = true <-> retriable_code statusCode err.
Proof.
  unfold shouldRetry, retriable_code,
    StatusInternalServerError, StatusServiceUnavailable,
    StatusGatewayTimeout, StatusTooManyRequests.
  destruct (errors_As_Errno err) as [errno |].
  - rewrite Z.eqb_eq. split.
    + intros ->. now left.
    + intros [H | [H _]]; congruence.
  - rewrite !orb_true_iff, !Z.eqb_eq. split.
    + intros H. right. split; [reflexivity | tauto].
    + intros [H | [_ H]]; [discriminate | tauto].
Qed.

(** C5 fails as written: a 502 answer is not retried. *)
Lemma shouldRetry_not_on_502 :
  retriable_spec StatusBadGateway (Some ErrUnexpectedStatusCode)
  /\ shouldRetry StatusBadGateway (Some ErrUnexpectedStatusCode) = false.
Proof.
  split; [| reflexivity].
  unfold retriable_spec, StatusBadGateway. tauto.
Qed.

Section Loop.
Context {S : Type}.
Variable env : Env.
Variable cfg : Config.
Variable webhookFn : S -> Z * go_error * S.

Lemma backoff_loop_unfold fuel retries statusCode calls s :
  backoff_loop env cfg webhookFn (Datatypes.S fuel) retries statusCode calls s =
  if retries <=? AuthWebhookMaxRetries cfg then
    let '(code, err, s') := webhookFn s in
    if negb (shouldRetry code err) then
      Some (mkBackoffResult (final_error code err) (calls + 1)%N s')
    else
      match ctx_Done env calls with
      | Some e => Some (mkBackoffResult (Some (ErrContext e)) (calls + 1)%N s')
      | None =>
          backoff_loop env cfg webhookFn fuel (wrap64 (retries + 1))
            statusCode (calls + 1)%N s'
      end
  else Some (mkBackoffResult (Some (timeout_error statusCode)) calls s).
Proof.
  simpl. destruct (retries <=? AuthWebhookMaxRetries cfg); [| reflexivity].
  destruct (webhookFn s) as [[code err] s'].
  unfold final_error.
  destruct (negb (shouldRetry code err)); [| reflexivity].
  now destruct (is_ErrUnexpectedStatusCode err).
Qed.

(** An outcome that [shouldRetry] rejects ends the loop at once. *)
Lemma backoff_loop_stops fuel retries statusCode calls s code err s' :
  retries <= AuthWebhookMaxRetries cfg ->
  webhookFn s = (code, err, s') ->
  shouldRetry code err = false ->
  backoff_loop env cfg webhookFn (Datatypes.S fuel) retries statusCode calls s
  = Some (mkBackoffResult (final_error code err) (calls + 1)%N s').
Proof.
  intros Hle Hfn Hno. rewrite backoff_loop_unfold.
  apply Z.leb_le in Hle. rewrite Hle, Hfn. simpl. now rewrite Hno.
Qed.

(** Below the top of the 64-bit range the loop ends within the fuel
    that its bound asks for, after at most
    [AuthWebhookMaxRetries + 1 - retries] further invocations. *)
Lemma backoff_loop_bounded fuel :
  forall retries statusCode calls s,
    0 <= retries ->
    AuthWebhookMaxRetries cfg < max_uint64 ->
    (1 <= fuel)%nat ->
    AuthWebhookMaxRetries cfg + 2 - retries <= Z.of_nat fuel ->
    exists r,
      backoff_loop env cfg webhookFn fuel retries statusCode calls s = Some r
      /\ Z.of_N (backoff_calls r)
         <= Z.of_N calls + Z.max 0 (AuthWebhookMaxRetries cfg + 1 - retries).
Proof.
  induction fuel as [| fuel IH]; intros retries statusCode calls s H0 Hmax H1 Hfuel.
  - lia.
  - rewrite backoff_loop_unfold.
    destruct (Z.leb_spec retries (AuthWebhookMaxRetries cfg)) as [Hle | Hgt].
    + destruct (webhookFn s) as [[code err] s'].
      destruct (negb (shouldRetry code err)).
      * eexists; split; [reflexivity |]. simpl. lia.
      * destruct (ctx_Done env calls) as [e |].
        -- eexists; split; [reflexivity |]. simpl. lia.
        -- assert (Hw : wrap64 (retries + 1) = retries + 1)
             by (apply wrap64_small; unfold max_uint64 in Hmax; lia).
           rewrite Hw.
           destruct (IH (retries + 1) statusCode (calls + 1)%N s')
             as (r & Hr & Hb); try lia.
           exists r. split; [exact Hr |]. lia.
    + eexists; split; [reflexivity |]. simpl. lia.
Qed.

(** Where the result of the loop comes from: the retries ran out, or
    the last invocation of [webhookFn] was rejected by [shouldRetry],
    or the context was done during the wait that followed it. *)
Lemma backoff_loop_result fuel :
  forall retries statusCode calls s r,
    backoff_loop env cfg webhookFn fuel retries statusCode calls s = Some r ->
    (backoff_err r = Some (timeout_error statusCode))
    \/ (exists s0 code err,
          webhookFn s0 = (code, err, backoff_state r)
          /\ ((shouldRetry code err = false
               /\ backoff_err r = final_error code err)
              \/ (shouldRetry code err = true
                  /\ exists e, backoff_err r = Some (ErrContext e)))).
Proof.
  induction fuel as [| fuel IH]; intros retries statusCode calls s r Hr.
  - discriminate.
  - rewrite backoff_loop_unfold in Hr.
    destruct (retries <=? AuthWebhookMaxRetries cfg).
    + destruct (webhookFn s) as [[code err] s'] eqn:Hfn.
      destruct (shouldRetry code err) eqn:Hsr; simpl in Hr.
      * destruct (ctx_Done env calls) as [e |].
        -- injection Hr as <-. right. exists s, code, err. simpl.
           split; [exact Hfn |]. right. split; [exact Hsr | now exists e].
        -- now apply IH in Hr.
      * injection Hr as <-. right. exists s, code, err. simpl.
        split; [exact Hfn |]. left. now split.
    + injection Hr as <-. now left.
Qed.
End Loop.

Section Verify.
Variable env : Env.
Variable cfg : Config.
Variable reqBody : string.

Lemma webhookFn_posts st :
  posts (snd (webhookFn env cfg reqBody st)) = (posts st + 1)%N.
Proof.
  unfold webhookFn.
  destruct (http_Post env (posts st) (AuthWebhookURL cfg) reqBody)
    as [e | code body]; [reflexivity |].
  destruct (negb (StatusOK =? code)); [reflexivity |].
  destruct (NewAuthWebhookResponse env body) as [e | resp]; [reflexivity |].
  now destruct (negb (Allowed resp)).
Qed.

(** The closure sends one POST per invocation. *)
Lemma backoff_posts fuel :
  forall retries statusCode calls st r,
    posts st = calls ->
    backoff_loop env cfg (webhookFn env cfg reqBody) fuel retries
      statusCode calls st = Some r ->
    posts (backoff_state r) = backoff_calls r.
Proof.
  induction fuel as [| fuel IH]; intros retries statusCode calls st r Hp Hr.
  - discriminate.
  - rewrite backoff_loop_unfold in Hr.
    pose proof (webhookFn_posts st) as Hs.
    destruct (retries <=? AuthWebhookMaxRetries cfg).
    + destruct (webhookFn env cfg reqBody st) as [[code err] s'].
      simpl in Hs.
      destruct (negb (shouldRetry code err)).
      * injection Hr as <-. simpl. congruence.
      * destruct (ctx_Done env calls) as [e |].
        -- injection Hr as <-. simpl. congruence.
        -- apply IH in Hr; [exact Hr | congruence].
    + injection Hr as <-. simpl. exact Hp.
Qed.

Lemma webhookFn_attempt st code err st' :
  webhookFn env cfg reqBody st = (code, err, st') ->
  attempt env cfg reqBody st code err st'.
Proof.
  unfold webhookFn.
  destruct (http_Post env (posts st) (AuthWebhookURL cfg) reqBody)
    as [e | status body] eqn:Hpost.
  - intros [= <- <- <-]. now apply attempt_failed.
  - destruct (Z.eqb_spec StatusOK status) as [<- | Hne]; simpl.
    + destruct (NewAuthWebhookResponse env body) as [e | resp] eqn:Hparse.
      * intros [= <- <- <-]. now apply attempt_unparseable with body.
      * destruct (Allowed resp) eqn:Hal; simpl; intros [= <- <- <-].
        -- now apply attempt_allowed with body.
        -- now apply attempt_denied with body.
    + intros [= <- <- <-]. apply attempt_status with body;
        [exact Hpost | congruence].
Qed.
End Verify.

Lemma uncached_error_not_NotAllowed err :
  uncached_error err -> errors_Is (Some err) ErrNotAllowed = false.
Proof. intros [e | code | statusCode | []]; reflexivity. Qed.




(** C3, as the code has it: with [AuthWebhookMaxRetries] below
    [2^64 - 1], [VerifyAccess] ends and has sent at most
    [AuthWebhookMaxRetries + 1] POSTs. *)
Theorem VerifyAccess_retry_bound (env : Env) (fuel : nat) (ctx : Context)
    (be : Backend) (info : AccessInfo) :
  0 <= AuthWebhookMaxRetries (be_Config be) < max_uint64 ->
  AuthWebhookMaxRetries (be_Config be) + 2 <= Z.of_nat fuel ->
  exists out,
    VerifyAccess env fuel ctx be info = Some out
    /\ Z.of_N (verify_posts out) <= AuthWebhookMaxRetries (be_Config be) + 1.
Proof.
  intros Hmax Hfuel. unfold VerifyAccess.
  destruct (negb (RequireAuth (be_Config be) (info_Method info))).
  { eexists; split; [reflexivity |]. simpl. lia. }
  destruct (json_Marshal env _) as [e | reqBody].
  { eexists; split; [reflexivity |]. simpl. lia. }
  destruct (cache_Get (AuthWebhookCache be) reqBody) as [[resp |] |].
  { destruct (negb (Allowed resp));
      (eexists; split; [reflexivity |]; simpl; lia). }
  { eexists; split; [reflexivity |]. simpl. lia. }
  unfold withExponentialBackoff.
  destruct (backoff_loop_bounded env (be_Config be)
              (webhookFn env (be_Config be) reqBody) fuel 0 0 0%N
              (mkWebhookState None 0%N))
    as (r & Hr & Hb); try lia.
  rewrite Hr.
  pose proof (backoff_posts env (be_Config be) reqBody fuel 0 0 0%N
                (mkWebhookState None 0%N) r eq_refl Hr) as Hp.
  destruct (backoff_err r) as [err |];
    (eexists; split; [reflexivity |]; simpl; rewrite Hp; lia).
Qed.

Lemma VerifyAccess_retry_bound_witness :
  let env := Sample.scripted [] Sample.unavailable in
  0 <= AuthWebhookMaxRetries (be_Config (Sample.backend 2)) < max_uint64
  /\ AuthWebhookMaxRetries (be_Config (Sample.backend 2)) + 2 <= Z.of_nat 4
  /\ exists out,
       VerifyAccess env 4 Sample.ctx (Sample.backend 2) Sample.info = Some out
       /\ Z.of_N (verify_posts out) <= 2 + 1.
Proof.
  intros env.
  assert (H1 : 0 <= AuthWebhookMaxRetries (be_Config (Sample.backend 2))
               < max_uint64) by (vm_compute; split; congruence).
  assert (H2 : AuthWebhookMaxRetries (be_Config (Sample.backend 2)) + 2
               <= Z.of_nat 4) by (vm_compute; congruence).
  split; [exact H1 |]. split; [exact H2 |].
  exact (VerifyAccess_retry_bound env 4 Sample.ctx (Sample.backend 2)
           Sample.info H1 H2).
Defined.

(** With [AuthWebhookMaxRetries = 2^64 - 1] the loop condition
    [retries <= AuthWebhookMaxRetries] holds for every value of the
    64-bit counter: as long as the webhook answers 503 the loop goes
    on. *)
Lemma stubborn_loop (k : nat) :
  forall fuel retries statusCode a p,
    0 <= retries <= max_uint64 ->
    Z.of_N p + Z.of_nat k <= 2 ^ 64 ->
    backoff_loop Sample.stubborn (Sample.config max_uint64)
      (webhookFn Sample.stubborn (Sample.config max_uint64) "token PushPull")
      (k + fuel) retries statusCode p (mkWebhookState a p)
    = backoff_loop Sample.stubborn (Sample.config max_uint64)
        (webhookFn Sample.stubborn (Sample.config max_uint64) "token PushPull")
        fuel (wrap64 (retries + Z.of_nat k)) statusCode (p + N.of_nat k)%N
        (mkWebhookState a (p + N.of_nat k)%N).
Proof.
  induction k as [| k IH]; intros fuel retries statusCode a p Hr Hp.
  - change (0 + fuel)%nat with fuel.
    rewrite Z.add_0_r, N.add_0_r.
    rewrite wrap64_small by (unfold max_uint64 in Hr; lia).
    reflexivity.
  - change (Datatypes.S k + fuel)%nat with (Datatypes.S (k + fuel)).
    rewrite backoff_loop_unfold.
    change (AuthWebhookMaxRetries (Sample.config max_uint64)) with max_uint64.
    destruct (Z.leb_spec retries max_uint64) as [_ | Hgt]; [| lia].
    unfold webhookFn at 1.
    change (http_Post Sample.stubborn (posts (mkWebhookState a p))
              (AuthWebhookURL (Sample.config max_uint64)) "token PushPull")
      with (if (p <? 2 ^ 64)%N
            then PostResponse StatusServiceUnavailable ""
            else PostResponse StatusOK "allow").
    destruct (N.ltb_spec p (2 ^ 64)) as [Hlt | Hge]; [| lia].
    change (negb (StatusOK =? StatusServiceUnavailable)) with true.
    cbv iota beta.
    change (shouldRetry StatusServiceUnavailable (Some ErrUnexpectedStatusCode))
      with true.
    change (ctx_Done Sample.stubborn p) with (@None ctx_error).
    cbv iota beta.
    change (authResp (mkWebhookState a p)) with a.
    change (posts (mkWebhookState a p)) with p.
    pose proof (wrap64_range (retries + 1)) as Hw.
    rewrite IH by (unfold max_uint64; lia).
    f_equal.
    + unfold wrap64. rewrite Zplus_mod_idemp_l. f_equal. lia.
    + lia.
    + f_equal. lia.
Qed.

(** C3 fails as written at [AuthWebhookMaxRetries = 2^64 - 1]: the
    retry counter wraps to 0 instead of passing the maximum, and against
    a webhook that answers 503 to the first 2^64 POSTs the call ends
    only with POST number 2^64 + 1. *)
Lemma VerifyAccess_exceeds_bound_at_max_retries :
  is_uint64 (AuthWebhookMaxRetries (be_Config (Sample.backend max_uint64)))
  /\ exists fuel out,
       VerifyAccess Sample.stubborn fuel Sample.ctx
         (Sample.backend max_uint64) Sample.info = Some out
       /\ verify_err out = Return None
       /\ Z.of_N (verify_posts out)
          > AuthWebhookMaxRetries (be_Config (Sample.backend max_uint64)) + 1.
Proof.
  split; [vm_compute; split; congruence |].
  assert (HK : exists K : nat, Z.of_nat K = 2 ^ 64)
    by (exists (Z.to_nat (2 ^ 64)); apply Z2Nat.id; lia).
  destruct HK as [K HK].
  assert (HN : N.of_nat K = (2 ^ 64)%N) by lia.
  exists (K + 1)%nat.
  unfold VerifyAccess.
  change (negb (RequireAuth (be_Config (Sample.backend max_uint64))
                  (info_Method Sample.info))) with false.
  cbv iota.
  change (json_Marshal Sample.stubborn
            {| req_Token := TokenFromCtx Sample.ctx;
               req_Method := info_Method Sample.info;
               req_Attributes := info_Attributes Sample.info |})
    with (@inr ext_error string "token PushPull").
  cbv iota beta zeta.
  change (cache_Get (AuthWebhookCache (Sample.backend max_uint64))
            "token PushPull") with (@None (option AuthWebhookResponse)).
  cbv iota.
  unfold withExponentialBackoff.
  change (be_Config (Sample.backend max_uint64)) with (Sample.config max_uint64).
  rewrite (stubborn_loop K 1 0 0 None 0%N)
    by (unfold max_uint64; lia).
  rewrite HK, HN.
  eexists. split; [vm_compute; reflexivity |].
  split; [reflexivity |]. vm_compute. reflexivity.
Qed.

(** C5, as the code has it: an outcome is retried exactly when its
    error chain holds an errno and that errno is [ECONNRESET], or holds
    no errno and the status is 500, 503, 504 or 429; any other outcome
    ends the loop in the iteration that saw it. *)
Theorem shouldRetry_decides {S : Type} (env : Env) (cfg : Config)
    (fn : S -> Z * go_error * S) (statusCode : Z) (err : go_error) :
  (shouldRetry statusCode err = true <-> retriable_code statusCode err)
  /\ (~ retriable_code statusCode err ->
      forall fuel retries outer calls s s',
        retries <= AuthWebhookMaxRetries cfg ->
        fn s = (statusCode, err, s') ->
        backoff_loop env cfg fn (Datatypes.S fuel) retries outer calls s
        = Some (mkBackoffResult (final_error statusCode err) (calls + 1)%N s')).
Proof.
  split; [apply shouldRetry_iff |].
  intros Hno fuel retries outer calls s s' Hle Hfn.
  apply backoff_loop_stops; [exact Hle | exact Hfn |].
  destruct (shouldRetry statusCode err) eqn:E; [| reflexivity].
  now apply shouldRetry_iff in E.
Qed.

Lemma shouldRetry_decides_witness :
  let reset := Some (ErrExternal (ExtWrap "Post" (ExtWrap "read tcp"
                                                   (ExtErrno ECONNRESET)))) in
  shouldRetry 0 reset = true
  /\ shouldRetry 503 (Some ErrUnexpectedStatusCode) = true
  /\ ~ retriable_code 404 (Some ErrUnexpectedStatusCode)
  /\ backoff_loop (Sample.scripted [] Sample.unavailable) (Sample.config 3)
       (fun s : unit => (404, Some ErrUnexpectedStatusCode, s)) 1 0 0 0%N tt
     = Some (mkBackoffResult
               (Some (Errorf "unexpected status code from webhook: 404"))
               1%N tt).
Proof.
  intros reset.
  assert (Hno : ~ retriable_code 404 (Some ErrUnexpectedStatusCode)).
  { intros [H | [_ H]]; [discriminate H | lia]. }
  pose proof (shouldRetry_decides (Sample.scripted [] Sample.unavailable)
                (Sample.config 3) (fun s : unit => (0, reset, s)) 0 reset)
    as [Hreset _].
  pose proof (shouldRetry_decides (Sample.scripted [] Sample.unavailable)
                (Sample.config 3)
                (fun s : unit => (503, Some ErrUnexpectedStatusCode, s))
                503 (Some ErrUnexpectedStatusCode)) as [H503 _].
  pose proof (shouldRetry_decides (Sample.scripted [] Sample.unavailable)
                (Sample.config 3)
                (fun s : unit => (404, Some ErrUnexpectedStatusCode, s))
                404 (Some ErrUnexpectedStatusCode)) as [_ H404].
  split; [apply Hreset; left; reflexivity |].
  split; [apply H503; right; split; [reflexivity | lia] |].
  split; [exact Hno |].
  apply (H404 Hno 0%nat 0 0 0%N tt tt); [vm_compute; congruence | reflexivity].
Defined.

(** C6 at work: three attempts, each answered 503 (or 500, 429 and
    504), exhaust two retries; the error wraps [ErrWebhookTimeout] and
    its text names status 0, not the status of the last attempt. *)
Theorem timeout_error_names_status_zero :
  let env := Sample.scripted [] Sample.unavailable in
  let env' := Sample.scripted
                [PostResponse 500 ""; PostResponse 429 ""; PostResponse 504 ""]
                Sample.unavailable in
  let timeout :=
    ErrorfW "unexpected status code from webhook 0: webhook timeout"
            ErrWebhookTimeout in
  VerifyAccess env 4 Sample.ctx (Sample.backend 2) Sample.info
  = Some (mkVerifyResult (Return (Some timeout)) ∅ 3%N)
  /\ http_Post env 2 "http://localhost/auth" "token PushPull"
     = PostResponse 503 ""
  /\ VerifyAccess env' 4 Sample.ctx (Sample.backend 2) Sample.info
     = Some (mkVerifyResult (Return (Some timeout)) ∅ 3%N)
  /\ http_Post env' 2 "http://localhost/auth" "token PushPull"
     = PostResponse 504 "".
Proof.
  repeat split; vm_compute; reflexivity.
Qed.

Lemma AccessAttributes_single_witness :
  let key := mkKey "c" "d" in
  let change := mkChange Change.InitialID "m" [] in
  AccessAttributes (Sample.scripted [] Sample.unavailable)
    (mkPack key (mkCheckpoint 0 0) [] None None)
  = [ mkAccessAttribute "c$d" Read ]
  /\ AccessAttributes (Sample.scripted [] Sample.unavailable)
       (mkPack key (mkCheckpoint 0 0) [change] None None)
     = [ mkAccessAttribute "c$d" ReadWrite ].
Proof.
  intros key change. split.
  - destruct (AccessAttributes_single (Sample.scripted [] Sample.unavailable)
                (mkPack key (mkCheckpoint 0 0) [] None None))
      as ([k v] & -> & Hk & Hr & _).
    simpl in *. now rewrite Hk, Hr.
  - destruct (AccessAttributes_single (Sample.scripted [] Sample.unavailable)
                (mkPack key (mkCheckpoint 0 0) [change] None None))
      as ([k v] & -> & Hk & _ & Hw).
    simpl in *. rewrite Hk, Hw by lia. reflexivity.
Defined.
End AuthGate.

(** ** The PushPull engine *)

Section PushPullProps.
Import Packs.
Context {Store : Type}.
Variable env : @Env Store.

Ltac unfold_M :=
  unfold PushPull, PushPull_body, mbind, M_bind, mret, M_ret, bind, ret,
    getHeap, invoke, record, AttachGoroutine.

(** One case per way through [PushPull]. *)
Ltac run_all :=
  unfold_M; simpl;
  destruct (pushChanges env _ _ _) as [[? | [pushedCP pushedChanges]] h1] eqn:Hpush;
    simpl;
    [| destruct (pullPack env _ _ _ _) as [[? | rp] h2] eqn:Hpull; simpl;
       [| destruct (UpdateCheckpoint env _ _ _) as [[? | ?] h3] eqn:Hcp; simpl;
          [| destruct (0 <? length pushedChanges)%nat eqn:Hlen;
             [destruct (CreateChangeInfos env _ _ _) as [[? | ?] h4] eqn:Hcreate |];
             simpl;
             try (destruct (UpdateClientInfoAfterPushPull env _)
                    as [[? | ?] h5] eqn:Hclient; simpl;
                  [| destruct (UpdateAndFindMinSyncedTicket env _ _ _)
                       as [[? | ticket] h6] eqn:Hmin; simpl;
                     [| destruct (HasChanges _) eqn:Hhas; simpl]])]]].

(** A successful [PushPull] went through step 04 and, with changes in
    the request, through step 05. *)
Lemma PushPull_success reqPack w respPack w' :
  PushPull env reqPack w = (inr respPack, w') ->
  exists pre h rp,
    calls w' = calls w ++ pre ++
      [CallUpdateAndFindMinSyncedTicket (ci_ID (h_client h)) (di_ID (h_doc h))
         (cp_ServerSeq (pack_Checkpoint reqPack));
       CallObserve "PushPullResponseSeconds"]
    /\ UpdateAndFindMinSyncedTicket env (di_ID (h_doc h))
         (cp_ServerSeq (pack_Checkpoint reqPack)) h
       = (inr (sp_MinSyncedTicket respPack), heap w')
    /\ respPack = mkServerPack (sp_DocumentKey rp) (sp_Checkpoint rp)
                    (sp_ChangeInfos rp) (sp_Snapshot rp)
                    (sp_MinSyncedTicket respPack)
    /\ goroutines w' = goroutines w ++
         (if HasChanges reqPack
          then [mkTask (ci_ID (h_client (heap w'))) (DocumentKey reqPack)
                  (h_doc (heap w')) (sp_MinSyncedTicket respPack)]
          else []).
Proof.
  run_all; intros Heq; try discriminate Heq; injection Heq as <- <-; simpl.
  all: match goal with
       | |- context [?A ++ [CallObserve ?s]] =>
           remember (A ++ [CallObserve s]) as recorded eqn:Hrec;
           rewrite <- ?app_assoc in Hrec; simpl in Hrec;
           match type of Hrec with
           | _ = _ ++ ?new => exists (take (length new - 2) new)
           end;
           subst recorded; simpl
       end.
  all: exists h5, rp; repeat split; try assumption.
  all: rewrite ?app_nil_r; reflexivity.
Qed.

(** Whatever the outcome, the calls of [UpdateAndFindMinSyncedTicket]
    that [PushPull] adds to the record carry the request's server
    sequence. *)
Lemma PushPull_calls reqPack w res w' :
  PushPull env reqPack w = (res, w') ->
  forall cid did seq,
    CallUpdateAndFindMinSyncedTicket cid did seq ∈ calls w' ->
    CallUpdateAndFindMinSyncedTicket cid did seq ∈ calls w
    \/ seq = cp_ServerSeq (pack_Checkpoint reqPack).
Proof.
  run_all; intros [= <- <-] cid did seq; simpl;
    rewrite ?elem_of_app, ?elem_of_cons, ?elem_of_nil;
    intros Hin; decompose [or] Hin; clear Hin;
      try discriminate; try contradiction; try (left; assumption).
  all: match goal with H : CallUpdateAndFindMinSyncedTicket _ _ _ = _ |- _ =>
         injection H as -> -> -> end; right; reflexivity.
Qed.

(** In the task, publishing and snapshotting come after a [TryLock]
    that succeeded. *)
Lemma snapshotTask_guarded (t : Task) pre ev post :
  snapshotTask env t = pre ++ ev :: post ->
  is_publish_or_store ev = true ->
  exists locker,
    NewLocker env (NewSnapshotKey env (task_DocumentKey t)) = inr locker
    /\ TryLock env locker = None
    /\ EvTryLock locker ∈ pre.
Proof.
  unfold snapshotTask.
  destruct (ActorIDFromHex env (task_clientID t)) as [e | publisherID].
  { intros Heq Hev.
    repeat (destruct pre as [| ? pre]; simplify_eq/=). }
  destruct (NewLocker env _) as [e | locker] eqn:Hl.
  { intros Heq Hev.
    repeat (destruct pre as [| ? pre]; simplify_eq/=). }
  destruct (TryLock env locker) as [e |] eqn:Ht.
  { intros Heq Hev.
    repeat (destruct pre as [| ? pre]; simplify_eq/=). }
  intros Heq Hev. exists locker. split; [reflexivity |]. split; [exact Ht |].
  destruct pre as [| x [| y pre]]; simplify_eq/=.
  set_solver.
Qed.

(** A [TryLock] that fails ends the task. *)
Lemma snapshotTask_not_locked (t : Task) locker err :
  NewLocker env (NewSnapshotKey env (task_DocumentKey t)) = inr locker ->
  TryLock env locker = Some err ->
  forall ev, ev ∈ snapshotTask env t -> is_publish_or_store ev = false.
Proof.
  intros Hl Ht ev. unfold snapshotTask.
  destruct (ActorIDFromHex env (task_clientID t)) as [e | publisherID].
  - rewrite elem_of_cons, elem_of_nil. intros [-> | []]. reflexivity.
  - rewrite Hl, Ht. rewrite !elem_of_cons, elem_of_nil.
    intros [-> | [-> | []]]; reflexivity.
Qed.

(** C1: every call of [UpdateAndFindMinSyncedTicket] that a [PushPull]
    makes has the server sequence of the request's checkpoint as its
    argument, and a [PushPull] that returns a pack has made that call
    last (before the deferred metric) and carries the ticket the call
    returned as [MinSyncedTicket]. *)
Theorem PushPull_min_synced_uses_request_seq
    (reqPack : Pack) (w w' : World) (res : error + ServerPack) :
  PushPull env reqPack w = (res, w') ->
  (forall cid did seq,
      CallUpdateAndFindMinSyncedTicket cid did seq ∈ calls w' ->
      CallUpdateAndFindMinSyncedTicket cid did seq ∈ calls w
      \/ seq = cp_ServerSeq (pack_Checkpoint reqPack))
  /\ (forall respPack,
        res = inr respPack ->
        exists pre h,
          calls w' = calls w ++ pre ++
            [CallUpdateAndFindMinSyncedTicket
               (ci_ID (h_client h)) (di_ID (h_doc h))
               (cp_ServerSeq (pack_Checkpoint reqPack));
             CallObserve "PushPullResponseSeconds"]
          /\ UpdateAndFindMinSyncedTicket env (di_ID (h_doc h))
               (cp_ServerSeq (pack_Checkpoint reqPack)) h
             = (inr (sp_MinSyncedTicket respPack), heap w')).
Proof.
  intros Hrun. split.
  - exact (PushPull_calls reqPack w res w' Hrun).
  - intros respPack ->.
    destruct (PushPull_success reqPack w respPack w' Hrun)
      as (pre & h & rp & Hcalls & Hmin & _).
    exists pre, h. split; assumption.
Qed.

(** C8: a successful [PushPull] attaches the detached task exactly when
    the request has changes; in the task, an event is published or a
    snapshot stored only after [TryLock] on the lock
    [snapshot-<documentKey>] has succeeded, and after a failed
    [TryLock] neither happens. *)
Theorem PushPull_async_tail
    (reqPack : Pack) (w w' : World) (respPack : ServerPack) :
  PushPull env reqPack w = (inr respPack, w') ->
  goroutines w' = goroutines w ++
    (if HasChanges reqPack
     then [mkTask (ci_ID (h_client (heap w'))) (DocumentKey reqPack)
             (h_doc (heap w')) (sp_MinSyncedTicket respPack)]
     else [])
  /\ (forall (t : Task) pre ev post,
        snapshotTask env t = pre ++ ev :: post ->
        is_publish_or_store ev = true ->
        exists locker,
          NewLocker env ("snapshot-" +:+ BSONKey env (task_DocumentKey t))
            = inr locker
          /\ TryLock env locker = None
          /\ EvTryLock locker ∈ pre)
  /\ (forall (t : Task) locker err,
        NewLocker env ("snapshot-" +:+ BSONKey env (task_DocumentKey t))
          = inr locker ->
        TryLock env locker = Some err ->
        forall ev, ev ∈ snapshotTask env t -> is_publish_or_store ev = false).
Proof.
  intros Hrun.
  destruct (PushPull_success reqPack w respPack w' Hrun)
    as (pre & h & rp & _ & _ & _ & Hgo).
  split; [exact Hgo |]. split.
  - intros t. apply snapshotTask_guarded.
  - intros t. apply snapshotTask_not_locked.
Qed.
End PushPullProps.

Section PushPullRuns.
Import Packs.

Lemma PushPull_min_synced_uses_request_seq_witness :
  let env := Sample.packsEnv None in
  let run := PushPull env Sample.pushOne Sample.world in
  PushPull env Sample.pushOne Sample.world = (fst run, snd run)
  /\ CallUpdateAndFindMinSyncedTicket "client" "doc" 7 ∈ calls (snd run)
  /\ (forall cid did seq,
         CallUpdateAndFindMinSyncedTicket cid did seq ∈ calls (snd run) ->
         seq = 7)
  /\ exists respPack,
       fst run = inr respPack
       /\ cp_ServerSeq (sp_Checkpoint respPack) = 11
       /\ sp_MinSyncedTicket respPack
          = Some (NewTicket 7 0 (Some InitialActorID)).
Proof.
  intros env run.
  assert (Hrun : PushPull env Sample.pushOne Sample.world = (fst run, snd run))
    by (subst run; now destruct (PushPull env Sample.pushOne Sample.world)).
  destruct (PushPull_min_synced_uses_request_seq env Sample.pushOne
              Sample.world (snd run) (fst run) Hrun) as [Hall Hret].
  split; [exact Hrun |]. split; [| split].
  - apply list_elem_of_lookup_2 with 10%nat. vm_compute. reflexivity.
  - intros cid did seq Hin.
    destruct (Hall cid did seq Hin) as [Hold | ->]; [| reflexivity].
    change (calls Sample.world) with (@nil Call) in Hold.
    now apply elem_of_nil in Hold.
  - eexists. split; [vm_compute; reflexivity |].
    split; reflexivity.
Defined.

Lemma PushPull_async_tail_witness :
  let env := Sample.packsEnv None in
  let busy := Sample.packsEnv (Some (Errorf "locked")) in
  let run := PushPull env Sample.pushOne Sample.world in
  let idle := PushPull env Sample.pullOnly Sample.world in
  (exists respPack, fst run = inr respPack)
  /\ length (goroutines (snd run)) = 1%nat
  /\ goroutines (snd idle) = []
  /\ (forall t, t ∈ goroutines (snd run) ->
        snapshotTask env t
        = [EvNewLocker "snapshot-c$d";
           EvTryLock (mkLocker "snapshot-c$d");
           EvPublish InitialActorID
             (mkDocEvent DocumentsChangedEvent InitialActorID [Sample.docKey]);
           EvStoreSnapshot (mkDocInfo "doc" Sample.docKey 11)
             (Some (NewTicket 7 0 (Some InitialActorID)));
           EvObserveSnapshotDuration;
           EvUnlock (mkLocker "snapshot-c$d")]
        /\ snapshotTask busy t
           = [EvNewLocker "snapshot-c$d"; EvTryLock (mkLocker "snapshot-c$d")]).
Proof.
  intros env busy run idle.
  assert (Hok : exists respPack w',
             PushPull env Sample.pushOne Sample.world = (inr respPack, w')
             /\ snd run = w')
    by (eexists _, _; split; [vm_compute; reflexivity | reflexivity]).
  destruct Hok as (respPack & w' & Hrun & Hw).
  assert (Hidle : exists respPack0 w0,
             PushPull env Sample.pullOnly Sample.world = (inr respPack0, w0)
             /\ snd idle = w0)
    by (eexists _, _; split; [vm_compute; reflexivity | reflexivity]).
  destruct Hidle as (respPack0 & w0 & Hrun0 & Hw0).
  destruct (PushPull_async_tail env Sample.pushOne Sample.world w' respPack Hrun)
    as (Hgo & _ & _).
  destruct (PushPull_async_tail env Sample.pullOnly Sample.world w0 respPack0
              Hrun0) as (Hgo0 & _ & _).
  split; [exists respPack; subst run; now rewrite Hrun |].
  rewrite Hw, Hw0, Hgo, Hgo0.
  split; [reflexivity |]. split; [reflexivity |].
  intros t Ht. rewrite <- Hgo, <- Hw in Ht.
  assert (Hg : goroutines (snd run)
               = [mkTask "client" Sample.docKey
                    (mkDocInfo "doc" Sample.docKey 11)
                    (Some (NewTicket 7 0 (Some InitialActorID)))])
    by (vm_compute; reflexivity).
  rewrite Hg, elem_of_cons, elem_of_nil in Ht. destruct Ht as [-> | []].
  split; vm_compute; reflexivity.
Defined.
End PushPullRuns.


(** * Further properties *)

(** ** Change identifiers: how the operations compose *)

Section ChangeCompose.
Import Change.

(** [n] calls of [Next] on an ID whose fields fit their types add [n] to
    [clientSeq] modulo 2^32 and to [lamport] modulo 2^64, and keep the
    actor. *)
Theorem Next_iter (id : ID) (n : nat) :
  wf id ->
  clientSeq (Nat.iter n Next id) = (clientSeq id + Z.of_nat n) mod 2 ^ 32
  /\ lamport (Nat.iter n Next id) = (lamport id + Z.of_nat n) mod 2 ^ 64
  /\ actorID (Nat.iter n Next id) = actorID id.
Proof.
  intros (Hc & Hl & _). unfold is_uint32, max_uint32 in Hc.
  unfold is_uint64, max_uint64 in Hl.
  induction n as [| n (IHc & IHl & IHa)].
  - simpl. rewrite !Z.add_0_r, !Z.mod_small by lia. auto.
  - rewrite Nat.iter_succ.
    set (prev := Nat.iter n Next id) in *.
    unfold Next; simpl.
    rewrite IHc, IHl, IHa. unfold wrap32, wrap64.
    rewrite !Zplus_mod_idemp_l.
    repeat split; f_equal; lia.
Qed.

Lemma Next_iter_witness :
  wf InitialID
  /\ clientSeq (Nat.iter 5 Next InitialID) = 5
  /\ lamport (Nat.iter 5 Next InitialID) = 5
  /\ actorID (Nat.iter 5 Next InitialID) = Some InitialActorID.
Proof.
  assert (H : wf InitialID)
    by (vm_compute; repeat split; congruence).
  split; [exact H |].
  exact (Next_iter InitialID 5 H).
Defined.

(** A server sequence stamped by [SetServerSeq] is invisible to every
    other operation: [Next], [SyncLamport], [SetActor] and
    [NewTimeTicket] give on the stamped ID what they give on the
    unstamped one, and of two stamps the later one stays. *)
Theorem SetServerSeq_invisible (id : ID) (s s' : option Z) (L' d : Z)
    (actor : option ActorID) :
  Next (SetServerSeq id s) = Next id
  /\ SyncLamport (SetServerSeq id s) L' = SyncLamport id L'
  /\ SetActor (SetServerSeq id s) actor = SetActor id actor
  /\ NewTimeTicket (SetServerSeq id s) d = NewTimeTicket id d
  /\ SetServerSeq (SetServerSeq id s) s' = SetServerSeq id s'
  /\ SetServerSeq (SetActor id actor) s
     = mkID (clientSeq id) s (lamport id) actor.
Proof.
  repeat split.
Qed.

(** Below the top of the range, the ID made by [Next] after a
    [SyncLamport] has a lamport above both the local and the received
    one, and a [SyncLamport] with a lamport that is not ahead ticks the
    clock by one, so that repeating a sync ticks again. *)
Theorem SyncLamport_then_Next (id : ID) (L' : Z) :
  0 <= lamport id < max_uint64 - 1 ->
  L' < max_uint64 ->
  lamport (Next (SyncLamport id L')) > Z.max (lamport id) L'
  /\ lamport (SyncLamport (SyncLamport id L') L')
     = lamport (SyncLamport id L') + 1.
Proof.
  intros HL HL'. unfold max_uint64 in *.
  rewrite !SyncLamport_lamport. unfold Next; simpl.
  rewrite !SyncLamport_lamport.
  destruct (Z.ltb_spec (lamport id) L') as [Hlt | Hge].
  - rewrite Z.ltb_irrefl.
    rewrite !wrap64_small by lia. lia.
  - rewrite (wrap64_small (lamport id + 1)) by lia.
    destruct (Z.ltb_spec (lamport id + 1) L') as [Hlt' | Hge']; [lia |].
    rewrite !wrap64_small by lia. lia.
Qed.

Lemma SyncLamport_then_Next_witness :
  0 <= lamport (NewID 1 7 None) < max_uint64 - 1
  /\ 9 < max_uint64
  /\ lamport (Next (SyncLamport (NewID 1 7 None) 9)) > Z.max 7 9
  /\ lamport (SyncLamport (SyncLamport (NewID 1 7 None) 9) 9) = 9 + 1.
Proof.
  assert (H1 : 0 <= lamport (NewID 1 7 None) < max_uint64 - 1)
    by (vm_compute; split; congruence).
  assert (H2 : 9 < max_uint64) by reflexivity.
  split; [exact H1 |]. split; [exact H2 |].
  exact (SyncLamport_then_Next (NewID 1 7 None) 9 H1 H2).
Defined.
End ChangeCompose.

(** ** The wait between two attempts *)

Section WaitInterval.
Import Auth.

Lemma to_int64_small z : - 2 ^ 63 <= z < 2 ^ 63 -> to_int64 z = z.
Proof. intros H. unfold to_int64. rewrite Z.mod_small; lia. Qed.

Lemma pow2_le_36 r : 0 <= r <= 36 -> 0 < 2 ^ r <= 2 ^ 36.
Proof.
  intros H. split; [apply Z.pow_pos_nonneg; lia |].
  apply Z.pow_le_mono_r; lia.
Qed.

Lemma waitInterval_small r m :
  0 <= r <= 36 ->
  waitInterval r m = Some (Z.min m (2 ^ r * 100 * Millisecond)).
Proof.
  intros H. unfold waitInterval.
  destruct (Z.leb_spec r 62); [| lia]. cbv zeta.
  pose proof (pow2_le_36 r H) as Hp. change (2 ^ 36) with 68719476736 in Hp.
  unfold Millisecond.
  rewrite (to_int64_small (2 ^ r * 100)) by lia.
  rewrite to_int64_small by lia.
  destruct (Z.ltb_spec m (2 ^ r * 100 * 1000000)); f_equal; lia.
Qed.

(** Up to 36 retries the wait is [min(maxWaitInterval, 2^retries * 100
    ms)]: nothing overflows, and the wait does not shrink as the retries
    grow. *)
Theorem waitInterval_exact (r r' m : Z) :
  0 <= r <= r' -> r' <= 36 ->
  waitInterval r m = Some (Z.min m (2 ^ r * 100 * Millisecond))
  /\ waitInterval r' m = Some (Z.min m (2 ^ r' * 100 * Millisecond))
  /\ Z.min m (2 ^ r * 100 * Millisecond) <= Z.min m (2 ^ r' * 100 * Millisecond).
Proof.
  intros Hr Hr'.
  rewrite !waitInterval_small by lia.
  split; [reflexivity |]. split; [reflexivity |].
  assert (Hmono : 2 ^ r <= 2 ^ r') by (apply Z.pow_le_mono_r; lia).
  unfold Millisecond. lia.
Qed.

Lemma waitInterval_exact_witness :
  0 <= 0 <= 3 /\ 3 <= 36
  /\ waitInterval 0 3000000000 = Some 100000000
  /\ waitInterval 3 3000000000 = Some 800000000
  /\ waitInterval 5 3000000000 = Some 3000000000.
Proof.
  assert (H1 : 0 <= 0 <= 3) by lia.
  assert (H2 : 3 <= 36) by lia.
  split; [exact H1 |]. split; [exact H2 |].
  destruct (waitInterval_exact 0 3 3000000000 H1 H2) as (Ha & Hb & _).
  split; [exact Ha |]. split; [exact Hb |]. reflexivity.
Defined.

Lemma interval_zero_from_56 r :
  56 <= r ->
  to_int64 (to_int64 ((if r <=? 62 then 2 ^ r else - 2 ^ 63) * 100)
            * Millisecond) = 0.
Proof.
  intros Hr. destruct (Z.leb_spec r 62) as [Hle | Hgt]; [| reflexivity].
  assert (Hcases : r = 56 \/ r = 57 \/ r = 58 \/ r = 59 \/ r = 60
                   \/ r = 61 \/ r = 62) by lia.
  decompose [or] Hcases; subst r; reflexivity.
Qed.

(** For every number of retries [waitInterval] returns a wait, and the
    wait never exceeds [maxWaitInterval]; but from 56 retries on the
    [int64] interval is 0 (the product [2^retries * 100 * 10^6] is a
    multiple of 2^64 up to 62, and beyond it the converted power is
    [-2^63]) and with it the wait: the backoff has collapsed. *)
Theorem waitInterval_collapses (r m : Z) :
  (exists d, waitInterval r m = Some d /\ d <= m)
  /\ (56 <= r -> 0 <= m -> waitInterval r m = Some 0).
Proof.
  split.
  - unfold waitInterval. cbv zeta.
    destruct (Z.ltb_spec m
                (to_int64
                   (to_int64 ((if r <=? 62 then 2 ^ r else - 2 ^ 63) * 100)
                    * Millisecond)));
      eexists; (split; [reflexivity | lia]).
  - intros Hr Hm. unfold waitInterval. cbv zeta.
    rewrite (interval_zero_from_56 r Hr).
    destruct (Z.ltb_spec m 0); [lia | reflexivity].
Qed.

Lemma waitInterval_collapses_witness :
  56 <= 60 /\ 0 <= 3000000000
  /\ waitInterval 60 3000000000 = Some 0
  /\ waitInterval 5000 3000000000 = Some 0
  /\ waitInterval 36 3000000000 = Some 3000000000.
Proof.
  assert (H1 : 56 <= 60) by lia.
  assert (H1' : 56 <= 5000) by lia.
  assert (H2 : 0 <= 3000000000) by lia.
  split; [exact H1 |]. split; [exact H2 |].
  split; [exact (proj2 (waitInterval_collapses 60 3000000000) H1 H2) |].
  split; [exact (proj2 (waitInterval_collapses 5000 3000000000) H1' H2) |].
  reflexivity.
Defined.
End WaitInterval.


(** ** The authorization gate: retries, cancellation and the cache *)

Section AuthRuns.
Import Auth.

Section Closure.
Variable env : Env.
Variable cfg : Config.
Variable reqBody : string.

Lemma webhookFn_outcome st :
  fst (webhookFn env cfg reqBody st) = outcome env cfg reqBody (posts st).
Proof.
  unfold outcome, webhookFn.
  change (posts (mkWebhookState None (posts st))) with (posts st).
  destruct (http_Post env (posts st) (AuthWebhookURL cfg) reqBody)
    as [e | code body]; [reflexivity |].
  destruct (negb (StatusOK =? code)); [reflexivity |].
  destruct (NewAuthWebhookResponse env body) as [e | resp]; [reflexivity |].
  now destruct (negb (Allowed resp)).
Qed.

Lemma webhookFn_step st :
  exists a,
    webhookFn env cfg reqBody st
    = (outcome env cfg reqBody (posts st), mkWebhookState a (posts st + 1)%N).
Proof.
  pose proof (webhookFn_outcome st) as Ho.
  pose proof (webhookFn_posts env cfg reqBody st) as Hp.
  destruct (webhookFn env cfg reqBody st) as [o [a p]]. simpl in *.
  exists a. congruence.
Qed.

(** [k] attempts in a row that are retriable and whose waits the
    context lets pass take the loop [k] iterations further. *)
Lemma retry_run (k : nat) :
  forall fuel retries statusCode st,
    0 <= retries ->
    retries + Z.of_nat k <= AuthWebhookMaxRetries cfg + 1 ->
    AuthWebhookMaxRetries cfg < max_uint64 ->
    (forall i, (posts st <= i < posts st + N.of_nat k)%N ->
               shouldRetry (fst (outcome env cfg reqBody i))
                           (snd (outcome env cfg reqBody i)) = true
               /\ ctx_Done env i = None) ->
    exists a,
      backoff_loop env cfg (webhookFn env cfg reqBody) (k + fuel) retries
        statusCode (posts st) st
      = backoff_loop env cfg (webhookFn env cfg reqBody) fuel
          (retries + Z.of_nat k) statusCode (posts st + N.of_nat k)%N
          (mkWebhookState a (posts st + N.of_nat k)%N).
Proof.
  induction k as [| k IH]; intros fuel retries statusCode st H0 Hk Hmax Hall.
  - exists (authResp st). destruct st as [a p]; simpl.
    now rewrite Z.add_0_r, N.add_0_r.
  - change (Datatypes.S k + fuel)%nat with (Datatypes.S (k + fuel)).
    rewrite backoff_loop_unfold.
    destruct (Z.leb_spec retries (AuthWebhookMaxRetries cfg)); [| lia].
    destruct (webhookFn_step st) as [a Hstep]. rewrite Hstep.
    destruct (Hall (posts st)) as [Hretry Hdone]; [lia |].
    destruct (outcome env cfg reqBody (posts st)) as [code err] eqn:Ho.
    simpl in Hretry. rewrite Hretry, Hdone. simpl.
    rewrite wrap64_small by (unfold max_uint64 in Hmax; lia).
    destruct (IH fuel (retries + 1) statusCode
                (mkWebhookState a (posts st + 1)%N)) as [a' Hrun];
      simpl; try lia.
    { intros i Hi. apply Hall. lia. }
    simpl in Hrun. exists a'. rewrite Hrun.
    f_equal; try lia. f_equal; lia.
Qed.
End Closure.

(** On a miss, [VerifyAccess] is the backoff loop followed by the
    update of the cache. *)
Lemma VerifyAccess_on_miss env fuel ctx be info reqBody :
  RequireAuth (be_Config be) (info_Method info) = true ->
  json_Marshal env
    {| req_Token := TokenFromCtx ctx;
       req_Method := info_Method info;
       req_Attributes := info_Attributes info |} = inr reqBody ->
  cache_Get (AuthWebhookCache be) reqBody = None ->
  VerifyAccess env fuel ctx be info
  = match backoff_loop env (be_Config be)
            (webhookFn env (be_Config be) reqBody) fuel 0 0 0%N
            (mkWebhookState None 0%N) with
    | None => None
    | Some r =>
        Some (mkVerifyResult (Return (backoff_err r))
                match backoff_err r with
                | Some err =>
                    if errors_Is (Some err) ErrNotAllowed
                    then cache_Add (AuthWebhookCache be) reqBody
                           (authResp (backoff_state r))
                           (ParseAuthWebhookCacheUnauthTTL (be_Config be))
                    else AuthWebhookCache be
                | None =>
                    cache_Add (AuthWebhookCache be) reqBody
                      (authResp (backoff_state r))
                      (ParseAuthWebhookCacheAuthTTL (be_Config be))
                end
                (posts (backoff_state r)))
    end.
Proof.
  intros Hreq Hm Hget. unfold VerifyAccess, withExponentialBackoff.
  rewrite Hreq, Hm, Hget. simpl.
  destruct (backoff_loop _ _ _ _ _ _ _ _) as [r |]; [| reflexivity].
  now destruct (backoff_err r).
Qed.

(** A webhook that stays unavailable: when every attempt is retriable
    and no wait is interrupted, a call on a miss sends exactly
    [AuthWebhookMaxRetries + 1] POSTs, returns the timeout error and
    leaves the cache as it was. *)
Theorem VerifyAccess_exhausts (env : Env) (fuel : nat) (ctx : Context)
    (be : Backend) (info : AccessInfo) (reqBody : string) :
  RequireAuth (be_Config be) (info_Method info) = true ->
  json_Marshal env
    {| req_Token := TokenFromCtx ctx;
       req_Method := info_Method info;
       req_Attributes := info_Attributes info |} = inr reqBody ->
  cache_Get (AuthWebhookCache be) reqBody = None ->
  0 <= AuthWebhookMaxRetries (be_Config be) < max_uint64 ->
  AuthWebhookMaxRetries (be_Config be) + 2 <= Z.of_nat fuel ->
  (forall i, Z.of_N i <= AuthWebhookMaxRetries (be_Config be) ->
             shouldRetry (fst (outcome env (be_Config be) reqBody i))
                         (snd (outcome env (be_Config be) reqBody i)) = true
             /\ ctx_Done env i = None) ->
  VerifyAccess env fuel ctx be info
  = Some (mkVerifyResult (Return (Some (timeout_error 0)))
            (AuthWebhookCache be)
            (Z.to_N (AuthWebhookMaxRetries (be_Config be) + 1))).
Proof.
  intros Hreq Hm Hget Hmax Hfuel Hall.
  rewrite (VerifyAccess_on_miss env fuel ctx be info reqBody Hreq Hm Hget).
  set (cfg := be_Config be) in *.
  set (k := Z.to_nat (AuthWebhookMaxRetries cfg + 1)).
  destruct (retry_run env cfg reqBody k (fuel - k) 0 0 (mkWebhookState None 0%N))
    as [a Hrun]; simpl; try lia.
  { intros i Hi. apply Hall. lia. }
  simpl in Hrun.
  replace fuel with (k + (fuel - k))%nat by lia. rewrite Hrun.
  destruct (fuel - k)%nat as [| fuel'] eqn:Hrest; [lia |].
  rewrite backoff_loop_unfold.
  destruct (Z.leb_spec (0 + Z.of_nat k) (AuthWebhookMaxRetries cfg)); [lia |].
  simpl. f_equal. f_equal. lia.
Qed.

Lemma VerifyAccess_exhausts_witness :
  VerifyAccess (Sample.scripted [] Sample.unavailable) 4 Sample.ctx
    (Sample.backend 2) Sample.info
  = Some (mkVerifyResult (Return (Some (timeout_error 0))) ∅ 3%N).
Proof.
  apply (VerifyAccess_exhausts (Sample.scripted [] Sample.unavailable) 4
           Sample.ctx (Sample.backend 2) Sample.info "token PushPull");
    try reflexivity.
  - simpl. unfold max_uint64. lia.
  - intros i _. split; [| reflexivity].
    unfold outcome, webhookFn; simpl. now destruct (N.to_nat i) as [| []].
Defined.

(** Cancellation: when the context is done during the wait after the
    attempt with index [n], the attempts before having been retried,
    the call returns [ctx.Err()] after [n + 1] POSTs and leaves the cache
    as it was. *)
Theorem VerifyAccess_cancelled (env : Env) (fuel n : nat) (ctx : Context)
    (be : Backend) (info : AccessInfo) (reqBody : string) (e : ctx_error) :
  RequireAuth (be_Config be) (info_Method info) = true ->
  json_Marshal env
    {| req_Token := TokenFromCtx ctx;
       req_Method := info_Method info;
       req_Attributes := info_Attributes info |} = inr reqBody ->
  cache_Get (AuthWebhookCache be) reqBody = None ->
  Z.of_nat n <= AuthWebhookMaxRetries (be_Config be) < max_uint64 ->
  (n + 1 <= fuel)%nat ->
  (forall i, (i <= N.of_nat n)%N ->
             shouldRetry (fst (outcome env (be_Config be) reqBody i))
                         (snd (outcome env (be_Config be) reqBody i)) = true) ->
  (forall i, (i < N.of_nat n)%N -> ctx_Done env i = None) ->
  ctx_Done env (N.of_nat n) = Some e ->
  VerifyAccess env fuel ctx be info
  = Some (mkVerifyResult (Return (Some (ErrContext e)))
            (AuthWebhookCache be) (N.of_nat n + 1)%N).
Proof.
  intros Hreq Hm Hget Hmax Hfuel Hretry Hpass Hdone.
  rewrite (VerifyAccess_on_miss env fuel ctx be info reqBody Hreq Hm Hget).
  set (cfg := be_Config be) in *.
  destruct (retry_run env cfg reqBody n (fuel - n) 0 0 (mkWebhookState None 0%N))
    as [a Hrun]; simpl; try lia.
  { intros i Hi. split; [apply Hretry | apply Hpass]; lia. }
  simpl in Hrun.
  replace fuel with (n + (fuel - n))%nat by lia. rewrite Hrun.
  rewrite N.add_0_l, Z.add_0_l.
  destruct (fuel - n)%nat as [| fuel'] eqn:Hrest; [lia |].
  rewrite backoff_loop_unfold.
  destruct (Z.leb_spec (Z.of_nat n) (AuthWebhookMaxRetries cfg)); [| lia].
  destruct (webhookFn_step env cfg reqBody (mkWebhookState a (N.of_nat n)))
    as [a' Hstep].
  simpl in Hstep. rewrite Hstep.
  pose proof (Hretry (N.of_nat n) ltac:(lia)) as Hr.
  destruct (outcome env cfg reqBody (N.of_nat n)) as [code err].
  simpl in Hr. rewrite Hr, Hdone. simpl.
  now destruct e.
Qed.

Lemma VerifyAccess_cancelled_witness :
  VerifyAccess (Sample.impatient 1) 5 Sample.ctx (Sample.backend 4) Sample.info
  = Some (mkVerifyResult (Return (Some (ErrContext Canceled))) ∅ 2%N).
Proof.
  apply (VerifyAccess_cancelled (Sample.impatient 1) 5 1 Sample.ctx
           (Sample.backend 4) Sample.info "token PushPull" Canceled);
    try reflexivity.
  - simpl. unfold max_uint64. lia.
  - lia.
  - intros i Hi. assert (i = 0%N) as -> by lia. reflexivity.
Defined.

(** After [n] retried attempts the loop stands before attempt [n]. *)
Lemma backoff_reaches env cfg reqBody (n fuel : nat) :
  Z.of_nat n <= AuthWebhookMaxRetries cfg < max_uint64 ->
  (n + 1 <= fuel)%nat ->
  (forall i, (i < N.of_nat n)%N ->
             shouldRetry (fst (outcome env cfg reqBody i))
                         (snd (outcome env cfg reqBody i)) = true
             /\ ctx_Done env i = None) ->
  exists a fuel',
    backoff_loop env cfg (webhookFn env cfg reqBody) fuel 0 0 0%N
      (mkWebhookState None 0%N)
    = backoff_loop env cfg (webhookFn env cfg reqBody) (Datatypes.S fuel')
        (Z.of_nat n) 0 (N.of_nat n) (mkWebhookState a (N.of_nat n)).
Proof.
  intros Hmax Hfuel Hall.
  assert (Hall' : forall i,
             (posts (mkWebhookState None 0%N) <= i
              < posts (mkWebhookState None 0%N) + N.of_nat n)%N ->
             shouldRetry (fst (outcome env cfg reqBody i))
                         (snd (outcome env cfg reqBody i)) = true
             /\ ctx_Done env i = None)
    by (intros i Hi; apply Hall; simpl in Hi; lia).
  destruct (retry_run env cfg reqBody n (fuel - n) 0 0
              (mkWebhookState None 0%N) (Z.le_refl 0) ltac:(lia)
              (proj2 Hmax) Hall') as [a Hrun].
  simpl in Hrun. rewrite N.add_0_l, Z.add_0_l in Hrun.
  remember (fuel - n)%nat as rest eqn:Hrest.
  destruct rest as [| fuel']; [lia |].
  exists a, fuel'. rewrite <- Hrun. f_equal. lia.
Qed.

(** Retry, then a decision: when the attempts before index [n] were
    retried and POST [n] is answered 200 with a body that parses, the
    call ends after [n + 1] POSTs, returns nil for an allowing body and
    the [ErrNotAllowed] error with the body's reason for a denying one,
    and has cached the decision under the auth resp. unauth TTL. *)
Theorem VerifyAccess_decides_after_retries (env : Env) (fuel n : nat)
    (ctx : Context) (be : Backend) (info : AccessInfo) (reqBody body : string)
    (resp : AuthWebhookResponse) :
  RequireAuth (be_Config be) (info_Method info) = true ->
  json_Marshal env
    {| req_Token := TokenFromCtx ctx;
       req_Method := info_Method info;
       req_Attributes := info_Attributes info |} = inr reqBody ->
  cache_Get (AuthWebhookCache be) reqBody = None ->
  Z.of_nat n <= AuthWebhookMaxRetries (be_Config be) < max_uint64 ->
  (n + 1 <= fuel)%nat ->
  (forall i, (i < N.of_nat n)%N ->
             shouldRetry (fst (outcome env (be_Config be) reqBody i))
                         (snd (outcome env (be_Config be) reqBody i)) = true
             /\ ctx_Done env i = None) ->
  http_Post env (N.of_nat n) (AuthWebhookURL (be_Config be)) reqBody
    = PostResponse StatusOK body ->
  NewAuthWebhookResponse env body = inr resp ->
  VerifyAccess env fuel ctx be info
  = Some (mkVerifyResult
            (Return (if Allowed resp then None
                     else Some (ErrorfW (Reason resp +:+ ": "
                                         +:+ ErrNotAllowed_text)
                                        ErrNotAllowed)))
            (cache_Add (AuthWebhookCache be) reqBody (Some resp)
               (if Allowed resp
                then ParseAuthWebhookCacheAuthTTL (be_Config be)
                else ParseAuthWebhookCacheUnauthTTL (be_Config be)))
            (N.of_nat n + 1)%N).
Proof.
  intros Hreq Hm Hget Hmax Hfuel Hall Hpost Hparse.
  rewrite (VerifyAccess_on_miss env fuel ctx be info reqBody Hreq Hm Hget).
  destruct (backoff_reaches env (be_Config be) reqBody n fuel Hmax Hfuel Hall)
    as (a & fuel' & ->).
  rewrite backoff_loop_unfold.
  destruct (Z.leb_spec (Z.of_nat n) (AuthWebhookMaxRetries (be_Config be)));
    [| lia].
  unfold webhookFn at 1.
  change (posts (mkWebhookState a (N.of_nat n))) with (N.of_nat n).
  rewrite Hpost.
  change (negb (StatusOK =? StatusOK)) with false. cbv iota.
  rewrite Hparse.
  destruct (Allowed resp); reflexivity.
Qed.

Lemma VerifyAccess_decides_after_retries_witness :
  VerifyAccess
    (Sample.scripted [Sample.unavailable; Sample.unavailable]
       (PostResponse 200 "deny"))
    9 Sample.ctx (Sample.backend 5) Sample.info
  = Some (mkVerifyResult
            (Return (Some (ErrorfW "no: method is not allowed for this user"
                                   ErrNotAllowed)))
            (cache_Add ∅ "token PushPull"
               (Some (mkAuthWebhookResponse false "no")) 5000000000)
            3%N).
Proof.
  apply (VerifyAccess_decides_after_retries
           (Sample.scripted [Sample.unavailable; Sample.unavailable]
              (PostResponse 200 "deny"))
           9 2 Sample.ctx (Sample.backend 5) Sample.info "token PushPull"
           "deny" (mkAuthWebhookResponse false "no"));
    try reflexivity.
  - simpl. unfold max_uint64. lia.
  - lia.
  - intros i Hi. split; [| reflexivity].
    assert (i = 0%N \/ i = 1%N) as [-> | ->] by lia; reflexivity.
Defined.

(** An unexpected status: when POST [n] is answered with a status that
    is neither 200 nor one of the retried ones, the call ends there with
    an error whose text carries the status.  That error is made by
    [fmt.Errorf] without [%w]: [errors.Is] does not find
    [ErrUnexpectedStatusCode] in it.  The cache is as it was. *)
Theorem VerifyAccess_unexpected_status (env : Env) (fuel n : nat)
    (ctx : Context) (be : Backend) (info : AccessInfo) (reqBody body : string)
    (code : Z) :
  RequireAuth (be_Config be) (info_Method info) = true ->
  json_Marshal env
    {| req_Token := TokenFromCtx ctx;
       req_Method := info_Method info;
       req_Attributes := info_Attributes info |} = inr reqBody ->
  cache_Get (AuthWebhookCache be) reqBody = None ->
  Z.of_nat n <= AuthWebhookMaxRetries (be_Config be) < max_uint64 ->
  (n + 1 <= fuel)%nat ->
  (forall i, (i < N.of_nat n)%N ->
             shouldRetry (fst (outcome env (be_Config be) reqBody i))
                         (snd (outcome env (be_Config be) reqBody i)) = true
             /\ ctx_Done env i = None) ->
  http_Post env (N.of_nat n) (AuthWebhookURL (be_Config be)) reqBody
    = PostResponse code body ->
  code <> 200 -> code <> 500 -> code <> 503 -> code <> 504 -> code <> 429 ->
  VerifyAccess env fuel ctx be info
  = Some (mkVerifyResult
            (Return (Some (Errorf ("unexpected status code from webhook: "
                                   +:+ itoa code))))
            (AuthWebhookCache be) (N.of_nat n + 1)%N)
  /\ errors_Is (Some (Errorf ("unexpected status code from webhook: "
                              +:+ itoa code)))
       ErrUnexpectedStatusCode = false.
Proof.
  intros Hreq Hm Hget Hmax Hfuel Hall Hpost H200 H500 H503 H504 H429.
  split; [| reflexivity].
  rewrite (VerifyAccess_on_miss env fuel ctx be info reqBody Hreq Hm Hget).
  destruct (backoff_reaches env (be_Config be) reqBody n fuel Hmax Hfuel Hall)
    as (a & fuel' & ->).
  rewrite backoff_loop_unfold.
  destruct (Z.leb_spec (Z.of_nat n) (AuthWebhookMaxRetries (be_Config be)));
    [| lia].
  unfold webhookFn at 1.
  change (posts (mkWebhookState a (N.of_nat n))) with (N.of_nat n).
  rewrite Hpost.
  destruct (Z.eqb_spec StatusOK code) as [Heq | _];
    [unfold StatusOK in Heq; congruence |].
  cbv iota. simpl negb. cbv iota.
  assert (Hno : shouldRetry code (Some ErrUnexpectedStatusCode) = false).
  { unfold shouldRetry, StatusInternalServerError, StatusServiceUnavailable,
      StatusGatewayTimeout, StatusTooManyRequests. simpl.
    repeat match goal with
           | |- context [code =? ?c] =>
               destruct (Z.eqb_spec code c); [congruence |]
           end.
    reflexivity. }
  rewrite Hno. reflexivity.
Qed.

Lemma VerifyAccess_unexpected_status_witness :
  VerifyAccess
    (Sample.scripted [Sample.unavailable] (PostResponse 502 ""))
    9 Sample.ctx (Sample.backend 5) Sample.info
  = Some (mkVerifyResult
            (Return (Some (Errorf "unexpected status code from webhook: 502")))
            ∅ 2%N).
Proof.
  apply (VerifyAccess_unexpected_status
           (Sample.scripted [Sample.unavailable] (PostResponse 502 ""))
           9 1 Sample.ctx (Sample.backend 5) Sample.info "token PushPull"
           "" 502);
    try reflexivity; try (intros H; discriminate H).
  - simpl. unfold max_uint64. lia.
  - lia.
  - intros i Hi. split; [| reflexivity].
    assert (i = 0%N) as -> by lia. reflexivity.
Defined.

(** How the loop of [VerifyAccess] can end: with an error that is not
    cached, with a denial, or with an allowance; in the last two cases
    [authResp] holds the response that decided. *)
Lemma backoff_decision env cfg reqBody fuel retries statusCode calls st r :
  backoff_loop env cfg (webhookFn env cfg reqBody) fuel retries statusCode
    calls st = Some r ->
  (exists err, backoff_err r = Some err /\ uncached_error err)
  \/ (exists resp,
        Allowed resp = false
        /\ authResp (backoff_state r) = Some resp
        /\ backoff_err r
           = Some (ErrorfW (Reason resp +:+ ": " +:+ ErrNotAllowed_text)
                           ErrNotAllowed))
  \/ (exists resp,
        Allowed resp = true
        /\ authResp (backoff_state r) = Some resp
        /\ backoff_err r = None).
Proof.
  intros Hb.
  apply backoff_loop_result in Hb as [Ht | (s0 & code & err & Hfn & Hcase)].
  - left. eexists. split; [exact Ht | constructor].
  - apply webhookFn_attempt in Hfn.
    remember (backoff_state r) as st' eqn:Hst.
    revert Hcase.
    destruct Hfn as [s e H1 | s c b H1 H2 | s b e H1 H2
                     | s b resp H1 H2 H3 | s b resp H1 H2 H3];
      intros [[Hno Hfin] | [Hyes [e' He]]];
      try (left; eexists; split; [exact He | constructor]);
      unfold final_error in Hfin; simpl in Hfin.
    + left. eexists. split; [exact Hfin | constructor].
    + left. eexists. split; [exact Hfin | apply uncached_status].
    + left. eexists. split; [exact Hfin | constructor].
    + right; left. exists resp. auto.
    + right; right. exists resp. auto.
Qed.

Lemma cache_wf_add c key resp ttl :
  cache_wf c -> cache_wf (cache_Add c key (Some resp) ttl).
Proof.
  intros Hwf k e. unfold cache_Add. rewrite lookup_insert.
  destruct (decide (key = k)) as [-> | Hne].
  - intros [= <-]. simpl. eauto.
  - apply Hwf.
Qed.

(** With retries that can run out, enough fuel gives a result. *)
Lemma VerifyAccess_returns env fuel ctx be info :
  0 <= AuthWebhookMaxRetries (be_Config be) < max_uint64 ->
  AuthWebhookMaxRetries (be_Config be) + 2 <= Z.of_nat fuel ->
  exists out, VerifyAccess env fuel ctx be info = Some out.
Proof.
  intros Hmax Hfuel. unfold VerifyAccess.
  destruct (negb (RequireAuth (be_Config be) (info_Method info))); [eauto |].
  destruct (json_Marshal env _) as [e | reqBody]; [eauto |].
  destruct (cache_Get (AuthWebhookCache be) reqBody) as [[resp |] |].
  { destruct (negb (Allowed resp)); eauto. }
  { eauto. }
  unfold withExponentialBackoff.
  destruct (backoff_loop_bounded env (be_Config be)
              (webhookFn env (be_Config be) reqBody) fuel 0 0 0%N
              (mkWebhookState None 0%N))
    as (r & Hr & _); try lia.
  rewrite Hr. destruct (backoff_err r); eauto.
Qed.

(** [VerifyAccess] panics only on a nil pointer in the cache and never
    stores one.  On a cache without nil pointers, a call whose retries
    can run out ([AuthWebhookMaxRetries < 2^64 - 1]) does return, and
    whenever a call ends it has returned, not panicked, and the cache it
    leaves is again without nil pointers. *)
Theorem VerifyAccess_keeps_cache_wf (env : Env) (fuel : nat) (ctx : Context)
    (be : Backend) (info : AccessInfo) :
  cache_wf (AuthWebhookCache be) ->
  (0 <= AuthWebhookMaxRetries (be_Config be) < max_uint64 ->
   AuthWebhookMaxRetries (be_Config be) + 2 <= Z.of_nat fuel ->
   exists out err,
     VerifyAccess env fuel ctx be info = Some out
     /\ verify_err out = Return err
     /\ cache_wf (verify_cache out))
  /\ (forall out,
        VerifyAccess env fuel ctx be info = Some out ->
        (exists err, verify_err out = Return err)
        /\ cache_wf (verify_cache out)).
Proof.
  intros Hwf.
  assert (Hpartial : forall out,
             VerifyAccess env fuel ctx be info = Some out ->
             (exists err, verify_err out = Return err)
             /\ cache_wf (verify_cache out)).
  { intros out Hv.
    destruct (RequireAuth (be_Config be) (info_Method info)) eqn:Hreq.
    2: { unfold VerifyAccess in Hv. rewrite Hreq in Hv.
         injection Hv as <-. simpl. eauto. }
    destruct (json_Marshal env
                {| req_Token := TokenFromCtx ctx;
                   req_Method := info_Method info;
                   req_Attributes := info_Attributes info |})
      as [e | reqBody] eqn:Hm.
    { unfold VerifyAccess in Hv. rewrite Hreq, Hm in Hv.
      injection Hv as <-. simpl. eauto. }
    destruct (cache_Get (AuthWebhookCache be) reqBody) as [entry |] eqn:Hget.
    { unfold VerifyAccess in Hv. rewrite Hreq, Hm, Hget in Hv. simpl in Hv.
      unfold cache_Get in Hget.
      destruct (AuthWebhookCache be !! reqBody) as [e |] eqn:Hl;
        [| discriminate].
      injection Hget as <-.
      destruct (Hwf reqBody e Hl) as [resp Hresp]. rewrite Hresp in Hv.
      destruct (negb (Allowed resp)); injection Hv as <-; simpl; eauto. }
    rewrite (VerifyAccess_on_miss env fuel ctx be info reqBody Hreq Hm Hget)
      in Hv.
    destruct (backoff_loop _ _ _ _ _ _ _ _) as [r |] eqn:Hb; [| discriminate].
    injection Hv as <-. simpl. split; [eauto |].
    destruct (backoff_decision _ _ _ _ _ _ _ _ _ Hb)
      as [(err & -> & Hu) | [(resp & _ & -> & ->) | (resp & _ & -> & ->)]].
    - pose proof (uncached_error_not_NotAllowed err Hu) as Hn.
      simpl in Hn. rewrite Hn. exact Hwf.
    - simpl. now apply cache_wf_add.
    - now apply cache_wf_add. }
  split; [| exact Hpartial].
  intros Hmax Hfuel.
  destruct (VerifyAccess_returns env fuel ctx be info Hmax Hfuel) as [out Hv].
  destruct (Hpartial out Hv) as [[err Herr] Hwf'].
  exists out, err. auto.
Qed.

Lemma VerifyAccess_keeps_cache_wf_witness :
  cache_wf (AuthWebhookCache (Sample.backend 5))
  /\ 0 <= AuthWebhookMaxRetries (be_Config (Sample.backend 5)) < max_uint64
  /\ AuthWebhookMaxRetries (be_Config (Sample.backend 5)) + 2 <= Z.of_nat 9
  /\ exists out err,
       VerifyAccess (Sample.scripted [] (PostResponse 200 "allow")) 9 Sample.ctx
         (Sample.backend 5) Sample.info = Some out
       /\ verify_err out = Return err
       /\ cache_wf (verify_cache out).
Proof.
  assert (Hwf : cache_wf (AuthWebhookCache (Sample.backend 5)))
    by (intros k e Hl; simpl in Hl; rewrite lookup_empty in Hl; discriminate).
  assert (H1 : 0 <= AuthWebhookMaxRetries (be_Config (Sample.backend 5))
               < max_uint64) by (simpl; unfold max_uint64; lia).
  assert (H2 : AuthWebhookMaxRetries (be_Config (Sample.backend 5)) + 2
               <= Z.of_nat 9) by (simpl; lia).
  split; [exact Hwf |]. split; [exact H1 |]. split; [exact H2 |].
  exact (proj1 (VerifyAccess_keeps_cache_wf
                  (Sample.scripted [] (PostResponse 200 "allow")) 9 Sample.ctx
                  (Sample.backend 5) Sample.info Hwf) H1 H2).
Defined.

(** A decision is served from the cache.  A call on a miss that
    returned nil or an [ErrNotAllowed] error has added a response under
    its key; any later call with the same request for which [Get] still
    returns that response (the entry has neither expired nor been
    evicted) returns the same result without a POST and leaves the cache
    it found, whatever the webhook would answer now. *)
Theorem VerifyAccess_decision_served_from_cache (env : Env) (fuel : nat)
    (ctx : Context) (be : Backend) (info : AccessInfo) (reqBody : string)
    (out : verify_result) :
  RequireAuth (be_Config be) (info_Method info) = true ->
  json_Marshal env
    {| req_Token := TokenFromCtx ctx;
       req_Method := info_Method info;
       req_Attributes := info_Attributes info |} = inr reqBody ->
  cache_Get (AuthWebhookCache be) reqBody = None ->
  VerifyAccess env fuel ctx be info = Some out ->
  (verify_err out = Return None
   \/ exists err, verify_err out = Return (Some err)
                  /\ errors_Is (Some err) ErrNotAllowed = true) ->
  exists resp ttl,
    verify_cache out = cache_Add (AuthWebhookCache be) reqBody (Some resp) ttl
    /\ forall env' fuel' (later : gmap string CacheEntry),
         json_Marshal env'
           {| req_Token := TokenFromCtx ctx;
              req_Method := info_Method info;
              req_Attributes := info_Attributes info |} = inr reqBody ->
         cache_Get later reqBody = Some (Some resp) ->
         VerifyAccess env' fuel' ctx (mkBackend (be_Config be) later) info
         = Some (mkVerifyResult (verify_err out) later 0%N).
Proof.
  intros Hreq Hm Hget Hv Hdec.
  rewrite (VerifyAccess_on_miss env fuel ctx be info reqBody Hreq Hm Hget) in Hv.
  destruct (backoff_loop _ _ _ _ _ _ _ _) as [r |] eqn:Hb; [| discriminate].
  injection Hv as <-. simpl in *.
  destruct (backoff_decision _ _ _ _ _ _ _ _ _ Hb)
    as [(err & He & Hu) | [(resp & Hal & Hst & He) | (resp & Hal & Hst & He)]];
    rewrite He in *.
  - pose proof (uncached_error_not_NotAllowed err Hu) as Hn. simpl in Hn.
    destruct Hdec as [Hd | (err' & [= <-] & Hd)]; [discriminate | congruence].
  - rewrite Hst. simpl. eexists resp, _. split; [reflexivity |].
    intros env' fuel' later Hm' Hhit.
    unfold VerifyAccess. simpl. rewrite Hreq, Hm'. simpl.
    rewrite Hhit, Hal. reflexivity.
  - rewrite Hst. eexists resp, _. split; [reflexivity |].
    intros env' fuel' later Hm' Hhit.
    unfold VerifyAccess. simpl. rewrite Hreq, Hm'. simpl.
    rewrite Hhit, Hal. reflexivity.
Qed.

Lemma VerifyAccess_decision_served_from_cache_witness :
  let denied :=
    Return (Some (ErrorfW "no: method is not allowed for this user"
                          ErrNotAllowed)) in
  let cache :=
    cache_Add ∅ "token PushPull" (Some (mkAuthWebhookResponse false "no"))
      5000000000 in
  VerifyAccess (Sample.scripted [] (PostResponse 200 "deny")) 9 Sample.ctx
    (Sample.backend 5) Sample.info
  = Some (mkVerifyResult denied cache 1%N)
  /\ cache_Get cache "token PushPull"
     = Some (Some (mkAuthWebhookResponse false "no"))
  /\ VerifyAccess (Sample.scripted [] Sample.unavailable) 0 Sample.ctx
       (mkBackend (Sample.config 5) cache) Sample.info
     = Some (mkVerifyResult denied cache 0%N).
Proof.
  intros denied cache.
  assert (Hrun : VerifyAccess (Sample.scripted [] (PostResponse 200 "deny")) 9
                   Sample.ctx (Sample.backend 5) Sample.info
                 = Some (mkVerifyResult denied cache 1%N))
    by (vm_compute; reflexivity).
  assert (Hhit : cache_Get cache "token PushPull"
                 = Some (Some (mkAuthWebhookResponse false "no")))
    by (unfold cache_Get, cache, cache_Add; now rewrite lookup_insert_eq).
  split; [exact Hrun |]. split; [exact Hhit |].
  destruct (VerifyAccess_decision_served_from_cache
              (Sample.scripted [] (PostResponse 200 "deny")) 9 Sample.ctx
              (Sample.backend 5) Sample.info "token PushPull"
              (mkVerifyResult denied cache 1%N)
              eq_refl eq_refl eq_refl Hrun)
    as (resp & ttl & Hadded & Hlater).
  { right. eexists. split; reflexivity. }
  assert (Hresp : resp = mkAuthWebhookResponse false "no").
  { assert (Hl : verify_cache (mkVerifyResult denied cache 1%N)
                   !! "token PushPull"
                 = Some (mkCacheEntry (Some resp) ttl))
      by (rewrite Hadded; apply lookup_insert_eq).
    simpl in Hl. unfold cache, cache_Add in Hl.
    rewrite lookup_insert_eq in Hl. now injection Hl as <- _. }
  subst resp.
  exact (Hlater (Sample.scripted [] Sample.unavailable) 0%nat cache
           eq_refl Hhit).
Defined.
End AuthRuns.

(** ** The PushPull engine: order, failure and the snapshot lock *)

Section PushPullOrder.
Import Packs.
Context {Store : Type}.
Variable env : @Env Store.

Ltac unfold_engine :=
  unfold PushPull, PushPull_body, mbind, M_bind, mret, M_ret, bind, ret,
    getHeap, invoke, record, AttachGoroutine.

Ltac run_paths :=
  unfold_engine; simpl;
  destruct (pushChanges env _ _ _) as [[? | [pushedCP pushedChanges]] h1] eqn:Hpush;
    simpl;
    [| destruct (pullPack env _ _ _ _) as [[? | rp] h2] eqn:Hpull; simpl;
       [| destruct (UpdateCheckpoint env _ _ _) as [[? | []] h3] eqn:Hcp; simpl;
          [| destruct (0 <? length pushedChanges)%nat eqn:Hlen;
             [destruct (CreateChangeInfos env _ _ _) as [[? | []] h4] eqn:Hcreate |];
             simpl;
             try (destruct (UpdateClientInfoAfterPushPull env _)
                    as [[? | []] h5] eqn:Hclient; simpl;
                  [| destruct (UpdateAndFindMinSyncedTicket env _ _ _)
                       as [[? | ticket] h6] eqn:Hmin; simpl;
                     [| destruct (HasChanges _) eqn:Hhas; simpl]])]]].

(** The two kinds of lock keys never collide, and two keys of one kind
    are equal exactly when the documents' BSON keys are. *)
Theorem lock_keys_apart (k k' : Key) :
  NewPushPullKey env k <> NewSnapshotKey env k'
  /\ (NewSnapshotKey env k = NewSnapshotKey env k'
      <-> BSONKey env k = BSONKey env k')
  /\ (NewPushPullKey env k = NewPushPullKey env k'
      <-> BSONKey env k = BSONKey env k').
Proof.
  unfold NewPushPullKey, NewSnapshotKey. simpl.
  split; [discriminate |].
  split; (split; [intros [= H]; exact H | intros ->; reflexivity]).
Qed.

(** A [PushPull] that fails attaches no task: nothing is published and
    no snapshot is stored for it. *)
Theorem PushPull_failure_attaches_nothing
    (reqPack : Pack) (w w' : World) (e : error) :
  PushPull env reqPack w = (inl e, w') ->
  goroutines w' = goroutines w.
Proof.
  run_paths; intros Heq; try discriminate Heq; injection Heq as <- <-;
    reflexivity.
Qed.

(** On every way out, with a pack or with an error, [PushPull] keeps the
    record of earlier calls and ends it with the deferred
    [ObservePushPullResponseSeconds]. *)
Theorem PushPull_observes_on_every_path
    (reqPack : Pack) (w w' : World) (res : error + ServerPack) :
  PushPull env reqPack w = (res, w') ->
  exists pre,
    calls w' = calls w ++ pre ++ [CallObserve "PushPullResponseSeconds"].
Proof.
  run_paths; intros [= <- <-]; simpl.
  all: match goal with
       | |- context [?A ++ [CallObserve ?s]] =>
           remember (A ++ [CallObserve s]) as recorded eqn:Hrec;
           rewrite <- ?app_assoc in Hrec; simpl in Hrec;
           match type of Hrec with
           | _ = _ ++ ?new => exists (take (length new - 1) new)
           end;
           subst recorded; simpl
       end.
  all: reflexivity.
Qed.

(** [CreateChangeInfos] is called only with a non-empty list of pushed
    changes, the one [pushChanges] returned, and with the server
    sequence that the document had when [PushPull] was entered. *)
Theorem PushPull_stores_pushed_changes_only
    (reqPack : Pack) (w w' : World) (res : error + ServerPack)
    (seq : Z) (changes : list ChangeT) :
  PushPull env reqPack w = (res, w') ->
  CallCreateChangeInfos seq changes ∈ calls w' ->
  CallCreateChangeInfos seq changes ∈ calls w
  \/ (seq = di_ServerSeq (h_doc (heap w))
      /\ changes <> []
      /\ exists cp h,
           pushChanges env reqPack (di_ServerSeq (h_doc (heap w))) (heap w)
           = (inr (cp, changes), h)).
Proof.
  run_paths; intros [= <- <-]; simpl;
    rewrite ?elem_of_app, ?elem_of_cons, ?elem_of_nil;
    intros Hin; decompose [or] Hin; clear Hin;
      try discriminate; try contradiction; try (left; assumption).
  all: match goal with H : CallCreateChangeInfos _ _ = _ |- _ =>
         injection H as -> -> end.
  all: right; split; [reflexivity |]; split;
    [intros ->; discriminate Hlen | eauto].
Qed.

(** The order of a successful [PushPull]: push, pull, the update of the
    client's checkpoint to the response's checkpoint, the store of the
    pushed changes when there are some, the store of the client, the
    min-synced update; each collaborator works on the heap that the one
    before left, and the pack returned is the pulled pack with
    [MinSyncedTicket] set. *)
Theorem PushPull_success_order
    (reqPack : Pack) (w w' : World) (respPack : ServerPack) :
  PushPull env reqPack w = (inr respPack, w') ->
  exists pushedCP pushedChanges rp h1 h2 h3 h4 h5,
    let initialServerSeq := di_ServerSeq (h_doc (heap w)) in
    pushChanges env reqPack initialServerSeq (heap w)
      = (inr (pushedCP, pushedChanges), h1)
    /\ pullPack env reqPack pushedCP initialServerSeq h1 = (inr rp, h2)
    /\ UpdateCheckpoint env (di_ID (h_doc h2)) (sp_Checkpoint rp) h2
       = (inr tt, h3)
    /\ (if (0 <? length pushedChanges)%nat
        then CreateChangeInfos env initialServerSeq pushedChanges h3
             = (inr tt, h4)
        else h4 = h3)
    /\ UpdateClientInfoAfterPushPull env h4 = (inr tt, h5)
    /\ UpdateAndFindMinSyncedTicket env (di_ID (h_doc h5))
         (cp_ServerSeq (pack_Checkpoint reqPack)) h5
       = (inr (sp_MinSyncedTicket respPack), heap w')
    /\ respPack = mkServerPack (sp_DocumentKey rp) (sp_Checkpoint rp)
                    (sp_ChangeInfos rp) (sp_Snapshot rp)
                    (sp_MinSyncedTicket respPack)
    /\ calls w'
       = calls w
         ++ [CallPushChanges reqPack initialServerSeq;
             CallMetric "AddPushPullReceivedChanges" (ChangesLen reqPack);
             CallMetric "AddPushPullReceivedOperations" (OperationsLen reqPack);
             CallPullPack reqPack pushedCP initialServerSeq;
             CallMetric "AddPushPullSentChanges" (sp_ChangesLen rp);
             CallMetric "AddPushPullSentOperations" (sp_OperationsLen rp);
             CallMetric "AddPushPullSnapshotBytes" (sp_SnapshotLen rp);
             CallUpdateCheckpoint (di_ID (h_doc h2)) (sp_Checkpoint respPack)]
         ++ (if (0 <? length pushedChanges)%nat
             then [CallCreateChangeInfos initialServerSeq pushedChanges]
             else [])
         ++ [CallUpdateClientInfoAfterPushPull;
             CallUpdateAndFindMinSyncedTicket (ci_ID (h_client h5))
               (di_ID (h_doc h5)) (cp_ServerSeq (pack_Checkpoint reqPack));
             CallObserve "PushPullResponseSeconds"].
Proof.
  run_paths; intros Heq; try discriminate Heq; injection Heq as <- <-; simpl.
  - exists pushedCP, pushedChanges, rp, h1, h2, h3, h4, h5.
    rewrite Hlen, <- !app_assoc. simpl. auto 10.
  - exists pushedCP, pushedChanges, rp, h1, h2, h3, h4, h5.
    rewrite Hlen, <- !app_assoc. simpl. auto 10.
  - exists pushedCP, pushedChanges, rp, h1, h2, h3, h3, h5.
    rewrite Hlen, <- !app_assoc. simpl. auto 10.
  - exists pushedCP, pushedChanges, rp, h1, h2, h3, h3, h5.
    rewrite Hlen, <- !app_assoc. simpl. auto 10.
Qed.

(** The snapshot lock is released once it has been taken: [Unlock] is
    issued only on a locker whose [TryLock] succeeded, and then once,
    after the snapshot has been stored and whether or not storing it
    failed; after it comes at most the log of its own error. *)
Theorem snapshotTask_unlocks (t : Task) :
  (forall l, EvUnlock l ∈ snapshotTask env t ->
             NewLocker env (NewSnapshotKey env (task_DocumentKey t)) = inr l
             /\ TryLock env l = None)
  /\ (forall publisherID l,
        ActorIDFromHex env (task_clientID t) = inr publisherID ->
        NewLocker env (NewSnapshotKey env (task_DocumentKey t)) = inr l ->
        TryLock env l = None ->
        exists pre,
          snapshotTask env t
          = pre ++ EvUnlock l ::
              match Unlock env l with
              | Some err => [EvLogError err]
              | None => []
              end
          /\ EvStoreSnapshot (task_docInfo t) (task_minSyncedTicket t) ∈ pre
          /\ EvUnlock l ∉ pre).
Proof.
  split.
  - intros l. unfold snapshotTask.
    destruct (ActorIDFromHex env (task_clientID t)) as [e | publisherID].
    { rewrite elem_of_cons, elem_of_nil. intros [H | []]. discriminate H. }
    destruct (NewLocker env _) as [e | locker] eqn:Hl.
    { rewrite !elem_of_cons, elem_of_nil. intros [H | [H | []]]; discriminate H. }
    destruct (TryLock env locker) as [e |] eqn:Ht.
    { rewrite !elem_of_cons, elem_of_nil. intros [H | [H | []]]; discriminate H. }
    destruct (storeSnapshot env _ _), (Unlock env locker); simpl;
      rewrite !elem_of_cons, elem_of_nil; intros Hin;
      decompose [or] Hin; clear Hin; try discriminate; try contradiction;
      match goal with H : EvUnlock _ = EvUnlock _ |- _ =>
        injection H as -> end; auto.
  - intros publisherID l Hp Hl Ht. unfold snapshotTask.
    rewrite Hp, Hl, Ht.
    exists ([EvNewLocker (NewSnapshotKey env (task_DocumentKey t));
             EvTryLock l;
             EvPublish publisherID
               {| ev_Type := DocumentsChangedEvent;
                  ev_Publisher := publisherID;
                  ev_DocumentKeys := [task_DocumentKey t] |};
             EvStoreSnapshot (task_docInfo t) (task_minSyncedTicket t)]
            ++ match storeSnapshot env (task_docInfo t)
                       (task_minSyncedTicket t) with
               | Some err => [EvLogError err]
               | None => []
               end
            ++ [EvObserveSnapshotDuration]).
    split; [| split].
    + destruct (storeSnapshot env _ _); reflexivity.
    + set_solver.
    + destruct (storeSnapshot env _ _); simpl;
        rewrite !elem_of_cons, elem_of_nil; intros Hin;
        decompose [or] Hin; try discriminate; contradiction.
Qed.
End PushPullOrder.

Section PushPullOrderRuns.
Import Packs.

Lemma PushPull_failure_attaches_nothing_witness :
  exists e w',
    PushPull Sample.brokenEnv Sample.pushOne Sample.world = (inl e, w')
    /\ goroutines w' = []
    /\ CallCreateChangeInfos 10 (Changes Sample.pushOne) ∈ calls w'.
Proof.
  destruct (PushPull Sample.brokenEnv Sample.pushOne Sample.world)
    as [[e | respPack] w'] eqn:Hrun;
    [| vm_compute in Hrun; discriminate Hrun].
  exists e, w'. split; [reflexivity |]. split.
  - exact (PushPull_failure_attaches_nothing Sample.brokenEnv Sample.pushOne
             Sample.world w' e Hrun).
  - apply list_elem_of_lookup_2 with 8%nat.
    vm_compute in Hrun. injection Hrun as _ <-. reflexivity.
Defined.

Lemma PushPull_observes_on_every_path_witness :
  exists res w' pre,
    PushPull Sample.brokenEnv Sample.pushOne Sample.world = (res, w')
    /\ calls w' = pre ++ [CallObserve "PushPullResponseSeconds"].
Proof.
  destruct (PushPull Sample.brokenEnv Sample.pushOne Sample.world)
    as [res w'] eqn:Hrun.
  destruct (PushPull_observes_on_every_path Sample.brokenEnv Sample.pushOne
              Sample.world w' res Hrun) as [pre Hpre].
  exists res, w', pre. split; [reflexivity | exact Hpre].
Defined.

Lemma PushPull_stores_pushed_changes_only_witness :
  let run := PushPull (Sample.packsEnv None) Sample.pushOne Sample.world in
  let idle := PushPull (Sample.packsEnv None) Sample.pullOnly Sample.world in
  CallCreateChangeInfos 10 (Changes Sample.pushOne) ∈ calls (snd run)
  /\ forall seq changes,
       CallCreateChangeInfos seq changes ∈ calls (snd idle) -> False.
Proof.
  intros run idle. split.
  - apply list_elem_of_lookup_2 with 8%nat. vm_compute. reflexivity.
  - intros seq changes Hin.
    assert (Hrun : PushPull (Sample.packsEnv None) Sample.pullOnly Sample.world
                   = (fst idle, snd idle))
      by (subst idle; now destruct (PushPull _ _ _)).
    destruct (PushPull_stores_pushed_changes_only (Sample.packsEnv None)
                Sample.pullOnly Sample.world (snd idle) (fst idle) seq changes
                Hrun Hin) as [Hold | (_ & Hne & cp & h & Hpush)].
    + change (calls Sample.world) with (@nil Call) in Hold.
      now apply elem_of_nil in Hold.
    + vm_compute in Hpush. injection Hpush as _ <- _. now apply Hne.
Defined.

Lemma PushPull_success_order_witness :
  exists respPack w',
    PushPull (Sample.packsEnv None) Sample.pushOne Sample.world
    = (inr respPack, w')
    /\ length (calls w') = 12%nat
    /\ sp_Checkpoint respPack = mkCheckpoint 4 11.
Proof.
  destruct (PushPull (Sample.packsEnv None) Sample.pushOne Sample.world)
    as [[e | respPack] w'] eqn:Hrun;
    [vm_compute in Hrun; discriminate Hrun |].
  exists respPack, w'. split; [reflexivity |].
  destruct (PushPull_success_order (Sample.packsEnv None) Sample.pushOne
              Sample.world w' respPack Hrun)
    as (cp & chs & rp & h1 & h2 & h3 & h4 & h5 & Hpush & Hpull & _ & _ & _
        & _ & Hresp & Hcalls).
  vm_compute in Hpush. injection Hpush as <- <- <-.
  vm_compute in Hpull. injection Hpull as <- <-.
  split.
  - rewrite Hcalls. reflexivity.
  - rewrite Hresp. reflexivity.
Defined.

Lemma snapshotTask_unlocks_witness :
  let t := mkTask "client" Sample.docKey (mkDocInfo "doc" Sample.docKey 11) None in
  EvUnlock (mkLocker "snapshot-c$d") ∈ snapshotTask (Sample.packsEnv None) t
  /\ ~ EvUnlock (mkLocker "snapshot-c$d")
       ∈ snapshotTask (Sample.packsEnv (Some (Errorf "locked"))) t.
Proof.
  intros t. split.
  - destruct (proj2 (snapshotTask_unlocks (Sample.packsEnv None) t)
                InitialActorID (mkLocker "snapshot-c$d")
                eq_refl eq_refl eq_refl) as (pre & -> & _).
    set_solver.
  - intros Hin.
    apply (proj1 (snapshotTask_unlocks
                    (Sample.packsEnv (Some (Errorf "locked"))) t)) in Hin.
    destruct Hin as [_ Hlock]. discriminate Hlock.
Defined.
End PushPullOrderRuns.
